(** * vbswap: the virtual block swap device (drivers/block/vbswap/vbswap.c)

    A shallow embedding of the request path of the driver: the origin
    gate [vbswap_make_request], the validator [vbswap_valid_io_request],
    the dispatcher [__vbswap_make_request], the two page operations
    [vbswap_bvec_read] and [vbswap_bvec_write], and the four sysfs
    attribute handlers.

    C integers are [Z], with the truncation to [u32] written out where the
    driver narrows; a page is the list of its bytes; the driver's globals
    and the parts of the kernel it talks to (page allocator, log) form the
    explicit state [kernel], threaded by the monad [M].  A NULL
    dereference ends a run in [Oops]. *)

From Stdlib Require Import ZArith List Bool Lia String Ascii.
From Stdlib Require Import Init.Byte DecimalString DecimalZ.
Import ListNotations.
Local Open Scope Z_scope.

(** ** Constants *)

Definition SECTOR_SHIFT : Z := 9.
Definition SECTOR_SIZE : Z := Z.shiftl 1 SECTOR_SHIFT.

(** Modelled from the spec: [PAGE_SHIFT] is a kernel configuration
    constant that the driver does not define; section 6 of the spec fixes
    the memory page at 4096 bytes in the reference configuration. *)
Definition PAGE_SHIFT : Z := 12.
Definition PAGE_SIZE : Z := Z.shiftl 1 PAGE_SHIFT.

Definition SECTORS_PER_PAGE_SHIFT : Z := PAGE_SHIFT - SECTOR_SHIFT.
Definition SECTORS_PER_PAGE : Z := Z.shiftl 1 SECTORS_PER_PAGE_SHIFT.
Definition VBSWAP_LOGICAL_BLOCK_SHIFT : Z := 12.
Definition VBSWAP_LOGICAL_BLOCK_SIZE : Z :=
  Z.shiftl 1 VBSWAP_LOGICAL_BLOCK_SHIFT.
Definition VBSWAP_SECTOR_PER_LOGICAL_BLOCK : Z :=
  Z.shiftl 1 (VBSWAP_LOGICAL_BLOCK_SHIFT - SECTOR_SHIFT).

Definition u32 (x : Z) : Z := x mod 2 ^ 32.
Definition u64 (x : Z) : Z := x mod 2 ^ 64.

(** The kernel's [SZ_1G] and [PAGE_ALIGN], the latter rounding up to the
    next multiple of the page size in 64-bit arithmetic. *)
Definition SZ_1G : Z := 0x40000000.
Definition PAGE_ALIGN (x : Z) : Z :=
  u64 (Z.land (x + (PAGE_SIZE - 1)) (Z.lnot (PAGE_SIZE - 1))).

Definition vbswap_disksize : Z := PAGE_ALIGN (u64 (SZ_1G * 6)).

(** Error numbers and the task flag tested by the origin gate, with the
    values of the kernel headers. *)
Definition EIO : Z := 5.
Definition ENOSPC : Z := 28.
Definition PF_KTHREAD : Z := 0x00200000.

Definition READ : Z := 0.
Definition WRITE : Z := 1.

(** ** Data *)

Definition page := list byte.

(** One segment of a request: the page it points at (by content), its
    length and its byte offset inside the page. *)
Record bio_vec := mk_bio_vec {
  bv_page : page;
  bv_len : Z;
  bv_offset : Z
}.

(** A request: direction, start sector, byte length and, in
    [bi_io_vec], its segments in order; [bi_vcnt] counts them.  Modelled
    from the spec: [bio_data_dir] is a block-layer accessor, absent from
    the source; section 3 gives a request a direction, read or write. *)
Record bio := mk_bio {
  bi_write : bool;
  bi_sector : Z;
  bi_size : Z;
  bi_io_vec : list bio_vec
}.

Definition bi_vcnt (b : bio) : Z := Z.of_nat (List.length (bi_io_vec b)).
Definition bio_data_dir (b : bio) : Z := if bi_write b then WRITE else READ.

Inductive blk_status_t := BLK_STS_OK | BLK_STS_IOERR.

(** What the driver prints.  [segment_trace] is the debug line issued
    immediately before every page operation. *)
Inductive message :=
| read_outside_header
| write_outside_header
| invalid_io_request (sector size disksize : Z)
| request_trace (rw index offset size : Z)
| invalid_offset (sector index offset : Z)
| bvec_misaligned (len offset : Z)
| segment_trace (rw index len : Z)
| bvec_rw_failed (ret : Z).

Inductive printk := pr_err (m : message) | pr_debug (m : message).

(** The state: the driver's global [swap_header_page] (NULL is [None]),
    the results of the coming calls of [alloc_page] (NULL is [None]; the
    content of a fresh page is whatever the allocator left in it), and the
    print statements executed so far, oldest first, each with its severity
    (a [pr_debug] line reaches the console in a DEBUG build only). *)
Record kernel := mk_kernel {
  swap_header_page : option page;
  page_allocator : list (option page);
  dmesg : list printk
}.

(** ** The monad of kernel code *)

Inductive result (A : Type) :=
| Done (a : A) (k : kernel)
| Oops.
Arguments Done {A} a k.
Arguments Oops {A}.

Definition M (A : Type) := kernel -> result A.

Definition ret {A} (a : A) : M A := fun k => Done a k.
Definition bind {A B} (m : M A) (f : A -> M B) : M B :=
  fun k => match m k with
           | Done a k' => f a k'
           | Oops => Oops
           end.
Definition oops {A} : M A := fun _ => Oops.

Declare Scope kernel_scope.
Delimit Scope kernel_scope with kernel.
Notation "x <- m ;; f" := (bind m (fun x => f))
  (at level 61, m at next level, right associativity) : kernel_scope.
Notation "m ;; f" := (bind m (fun _ => f))
  (at level 61, right associativity) : kernel_scope.
Local Open Scope kernel_scope.

Definition get_swap_header_page : M (option page) :=
  fun k => Done (swap_header_page k) k.
Definition set_swap_header_page (p : option page) : M unit :=
  fun k => Done tt (mk_kernel p (page_allocator k) (dmesg k)).
Definition log (l : printk) : M unit :=
  fun k => Done tt (mk_kernel (swap_header_page k) (page_allocator k)
                              (dmesg k ++ [l])).
Definition alloc_page : M (option page) :=
  fun k => match page_allocator k with
           | [] => Done None k
           | p :: rest => Done p (mk_kernel (swap_header_page k) rest (dmesg k))
           end.

(** ** Memory copies

    [memcpy dst off src n] is the page [dst] after
    [memcpy(dst + off, src, n)], [memset dst off c n] the page after
    [memset(dst + off, c, n)].  Both are meant for [off + n] within [dst]
    and [n] within [src], the only way the dispatcher calls them. *)
Definition memcpy (dst : page) (off : Z) (src : page) (n : Z) : page :=
  firstn (Z.to_nat off) dst ++ firstn (Z.to_nat n) src
    ++ skipn (Z.to_nat (off + n)) dst.
Definition memset (dst : page) (off : Z) (c : byte) (n : Z) : page :=
  firstn (Z.to_nat off) dst ++ repeat c (Z.to_nat n)
    ++ skipn (Z.to_nat (off + n)) dst.

Definition with_page (bvec : bio_vec) (p : page) : bio_vec :=
  mk_bio_vec p (bv_len bvec) (bv_offset bvec).

(** ** The driver *)

Definition vbswap_valid_io_request (bio : bio) : Z :=
  if (bi_sector bio >=? Z.shiftr vbswap_disksize SECTOR_SHIFT)
     || negb (Z.land (bi_sector bio) (VBSWAP_SECTOR_PER_LOGICAL_BLOCK - 1) =? 0)
     || negb (Z.land (bi_size bio) (VBSWAP_LOGICAL_BLOCK_SIZE - 1) =? 0)
  then 0 else 1.

(** Returns the C return value and the segment with its page as the call
    leaves it. *)
Definition vbswap_bvec_read (bvec : bio_vec) (index : Z) : M (Z * bio_vec) :=
  (if negb (index =? 0) then log (pr_err read_outside_header) else ret tt) ;;
  let page := bv_page bvec in
  hdr <- get_swap_header_page ;;
  match index =? 0, hdr with
  | true, Some swap_header_page_mem =>
      set_swap_header_page None ;;
      ret (0, with_page bvec
                (memcpy page (bv_offset bvec) swap_header_page_mem
                   (bv_len bvec)))
  | _, _ =>
      ret (0, with_page bvec (memset page (bv_offset bvec) x00 (bv_len bvec)))
  end.

(** The result of [alloc_page] is stored and mapped unchecked: with a NULL
    page the copy goes through an invalid address. *)
Definition vbswap_bvec_write (bvec : bio_vec) (index : Z) : M (Z * bio_vec) :=
  if negb (index =? 0) then
    log (pr_err write_outside_header) ;;
    ret (- EIO, bvec)
  else
    let user_mem := bv_page bvec in
    old <- get_swap_header_page ;;
    (match old with
     | None => p <- alloc_page ;; set_swap_header_page p
     | Some _ => ret tt
     end) ;;
    hdr <- get_swap_header_page ;;
    match hdr with
    | None => oops
    | Some swap_header_page_mem =>
        set_swap_header_page
          (Some (memcpy swap_header_page_mem 0 user_mem PAGE_SIZE)) ;;
        ret (0, bvec)
    end.

Definition vbswap_bvec_rw (bvec : bio_vec) (index : Z) (rw : Z)
  : M (Z * bio_vec) :=
  if rw =? READ then vbswap_bvec_read bvec index
  else vbswap_bvec_write bvec index.

(** [bio_io_error] and the successful [bio_endio]: the completion status
    together with the segments as the request leaves them. *)
Definition bio_io_error (segs : list bio_vec)
  : M (blk_status_t * list bio_vec) := ret (BLK_STS_IOERR, segs).
Definition bio_endio_ok (segs : list bio_vec)
  : M (blk_status_t * list bio_vec) := ret (BLK_STS_OK, segs).

(** Modelled from the spec: [bio_iter_iovec] and [bio_for_each_segment]
    are block-layer macros, absent from the source.  By section 4.3 of the
    spec the loop takes the segments of the request in order; it does so
    with the iterator of the block layer, a copy of [bi_iter], which hands
    a segment out only while bytes of the request remain ([size], the
    iterator's [bi_size], an unsigned number, is not zero) and cuts it to
    the bytes that remain.

    [bio_iter_iovec size bvec] is the segment handed out at [bvec] with
    [size] bytes to go: the same page and offset, and no more bytes than
    remain.  The loop variable is this copy; what the body does to the
    page shows in the segment of the request. *)
Definition bio_iter_iovec (size : Z) (bvec : bio_vec) : bio_vec :=
  mk_bio_vec (bv_page bvec) (Z.min size (bv_len bvec)) (bv_offset bvec).

(** [todo] are the segments still to visit, [seen] those already handled;
    the body is the one of the source.  After a body that has run to its
    end the iterator advances by the length handed out, a full page: either
    the segment is used up or no byte remains, so that every segment is
    handed out from its start and at most once.  The iterator does not
    look at [bi_vcnt]; the loop is taken to end where the segments do. *)
Fixpoint bio_for_each_segment (rw : Z) (index : Z) (size : Z)
    (seen todo : list bio_vec) : M (blk_status_t * list bio_vec) :=
  match todo with
  | [] => bio_endio_ok seen
  | s :: rest =>
      if 0 <? size then
        let bvec := bio_iter_iovec size s in
        if negb (bv_len bvec =? PAGE_SIZE) || negb (bv_offset bvec =? 0) then
          log (pr_err (bvec_misaligned (bv_len bvec) (bv_offset bvec))) ;;
          bio_io_error (seen ++ todo)
        else
          log (pr_debug (segment_trace rw index (bv_len bvec))) ;;
          r <- vbswap_bvec_rw bvec index rw ;;
          let '(ret_, bvec') := r in
          let s' := with_page s (bv_page bvec') in
          if ret_ <? 0 then
            (if negb (ret_ =? - ENOSPC)
             then log (pr_err (bvec_rw_failed ret_))
             else log (pr_debug (bvec_rw_failed ret_))) ;;
            bio_io_error (seen ++ s' :: rest)
          else
            bio_for_each_segment rw (u32 (index + 1)) (size - bv_len bvec)
              (seen ++ [s']) rest
      else
        bio_endio_ok (seen ++ todo)
  end.

Definition __vbswap_make_request (bio : bio) (rw : Z)
  : M (blk_status_t * list bio_vec) :=
  if vbswap_valid_io_request bio =? 0 then
    log (pr_err (invalid_io_request (bi_sector bio) (bi_size bio)
                   vbswap_disksize)) ;;
    bio_io_error (bi_io_vec bio)
  else
    let index := u32 (Z.shiftr (bi_sector bio) SECTORS_PER_PAGE_SHIFT) in
    let offset :=
      Z.shiftl (Z.land (bi_sector bio) (SECTORS_PER_PAGE - 1)) SECTOR_SHIFT in
    log (pr_debug (request_trace rw index offset (bi_size bio))) ;;
    if negb (offset =? 0) then
      log (pr_err (invalid_offset (bi_sector bio) index offset)) ;;
      bio_io_error (bi_io_vec bio)
    else if bi_size bio >? PAGE_SIZE then
      bio_io_error (bi_io_vec bio)
    else if bi_vcnt bio >? 1 then
      bio_io_error (bi_io_vec bio)
    else
      bio_for_each_segment rw index (bi_size bio) [] (bi_io_vec bio).

(** [current_flags] is [current->flags] of the calling task. *)
Definition vbswap_make_request (current_flags : Z) (bio : bio)
  : M (blk_status_t * list bio_vec) :=
  if negb (Z.land current_flags PF_KTHREAD =? 0) then
    bio_io_error (bi_io_vec bio)
  else
    __vbswap_make_request bio (bio_data_dir bio).

(** ** The sysfs attributes

    [scnprintf size text] is the effect of [scnprintf(buf, size, ...)] when
    the format expands to [text]: what lands in the buffer (without the
    terminating NUL) and the value returned, its length. *)
Definition newline : string := String "010"%char EmptyString.

Definition scnprintf (size : Z) (text : string) : string * Z :=
  let written := substring 0 (Z.to_nat (size - 1)) text in
  (written, Z.of_nat (String.length written)).

Definition s32 (x : Z) : Z := (x + 2 ^ 31) mod 2 ^ 32 - 2 ^ 31.
Definition ssize_t (x : Z) : Z := (x + 2 ^ 63) mod 2 ^ 64 - 2 ^ 63.

(** The conversions [%llu] and [%d]. *)
Definition fmt_llu (x : Z) : string :=
  NilZero.string_of_uint (N.to_uint (Z.to_N (u64 x))).
Definition fmt_d (x : Z) : string := NilZero.string_of_int (Z.to_int (s32 x)).

Definition disksize_show : M (string * Z) :=
  ret (scnprintf PAGE_SIZE (fmt_llu vbswap_disksize ++ newline)%string).

Definition disksize_store (buf : string) (len : Z) : M Z :=
  ret (ssize_t len).

(** [num_online_cpus] is the host's count of online processors at the
    time of the call. *)
Definition max_comp_streams_show (num_online_cpus : Z) : M (string * Z) :=
  ret (scnprintf PAGE_SIZE (fmt_d num_online_cpus ++ newline)%string).

Definition max_comp_streams_store (buf : string) (len : Z) : M Z :=
  ret (ssize_t len).

Arguments memcpy : simpl never.
Arguments memset : simpl never.

(** ** Vocabulary of the statements *)

(** The page index the dispatcher derives from the start sector. *)
Definition page_index (b : bio) : Z :=
  u32 (Z.shiftr (bi_sector b) SECTORS_PER_PAGE_SHIFT).

Definition is_page (p : page) : Prop := List.length p = Z.to_nat PAGE_SIZE.

Definition zero_page : page := repeat x00 (Z.to_nat PAGE_SIZE).

(** [b] passes every check of the dispatcher with the single segment
    [s], so that the page operation on [s] runs: the request is valid and
    one page long, and [s] starts at offset zero and has a page of bytes
    to hand out (of a longer segment the loop sees the first page). *)
Definition reaches_page_op (b : bio) (s : bio_vec) : Prop :=
  vbswap_valid_io_request b = 1
  /\ bi_size b = PAGE_SIZE /\ bi_io_vec b = [s]
  /\ PAGE_SIZE <= bv_len s /\ bv_offset s = 0.

(** A request of one full page: such a request, of [PAGE_SIZE] bytes,
    with its start sector in the range of the C type and its segment
    exactly one page long, on a page of memory. *)
Definition one_page_request (b : bio) (s : bio_vec) : Prop :=
  0 <= bi_sector b /\ bv_len s = PAGE_SIZE
  /\ reaches_page_op b s /\ is_page (bv_page s).

(** [k] after one more line of log. *)
Definition logged (k : kernel) (l : printk) : kernel :=
  mk_kernel (swap_header_page k) (page_allocator k) (dmesg k ++ [l]).

Definition is_page_op (l : printk) : bool :=
  match l with
  | pr_debug (segment_trace _ _ _) => true
  | _ => false
  end.

Definition is_rw_failure (l : printk) : bool :=
  match l with
  | pr_err (bvec_rw_failed _) | pr_debug (bvec_rw_failed _) => true
  | _ => false
  end.

(** [k'] differs from [k] by log lines only, none of them of kind [f]. *)
Definition only_logged (f : printk -> bool) (k k' : kernel) : Prop :=
  swap_header_page k' = swap_header_page k
  /\ page_allocator k' = page_allocator k
  /\ exists lines, dmesg k' = dmesg k ++ lines /\ existsb f lines = false.

(** From [k] to [k'] the log only grew, and by no line of a failed page
    operation, at either severity. *)
Definition no_rw_failure (k k' : kernel) : Prop :=
  exists lines, dmesg k' = dmesg k ++ lines
                /\ existsb is_rw_failure lines = false.

Definition full_page_segment (s : bio_vec) : Prop :=
  bv_len s = PAGE_SIZE /\ bv_offset s = 0.

(** ** Every way a request can go *)

(** The state once the dispatcher has printed its trace of the request,
    and once it has printed the trace of the segment. *)
Definition traced (b : bio) (k : kernel) : kernel :=
  logged k (pr_debug (request_trace (bio_data_dir b) (page_index b) 0
                        (bi_size b))).
Definition at_page_op (b : bio) (k : kernel) : kernel :=
  logged (traced b k)
         (pr_debug (segment_trace (bio_data_dir b) (page_index b) PAGE_SIZE)).

Inductive request_path (current_flags : Z) (b : bio) (k : kernel)
  : result (blk_status_t * list bio_vec) -> Prop :=
| path_rejected :
    Z.land current_flags PF_KTHREAD <> 0 ->
    request_path current_flags b k (Done (BLK_STS_IOERR, bi_io_vec b) k)
| path_invalid :
    Z.land current_flags PF_KTHREAD = 0 ->
    vbswap_valid_io_request b = 0 ->
    request_path current_flags b k
      (Done (BLK_STS_IOERR, bi_io_vec b)
         (logged k (pr_err (invalid_io_request (bi_sector b) (bi_size b)
                              vbswap_disksize))))
| path_too_large :
    Z.land current_flags PF_KTHREAD = 0 ->
    vbswap_valid_io_request b = 1 ->
    bi_size b > PAGE_SIZE \/ bi_vcnt b > 1 ->
    request_path current_flags b k
      (Done (BLK_STS_IOERR, bi_io_vec b) (traced b k))
| path_no_segment :
    Z.land current_flags PF_KTHREAD = 0 ->
    vbswap_valid_io_request b = 1 ->
    bi_size b <= PAGE_SIZE -> bi_io_vec b = [] ->
    request_path current_flags b k (Done (BLK_STS_OK, []) (traced b k))
| path_no_bytes (s : bio_vec) :
    Z.land current_flags PF_KTHREAD = 0 ->
    vbswap_valid_io_request b = 1 ->
    bi_size b <= 0 -> bi_io_vec b = [s] ->
    request_path current_flags b k (Done (BLK_STS_OK, [s]) (traced b k))
| path_misaligned (s : bio_vec) :
    Z.land current_flags PF_KTHREAD = 0 ->
    vbswap_valid_io_request b = 1 ->
    0 < bi_size b <= PAGE_SIZE -> bi_io_vec b = [s] ->
    Z.min (bi_size b) (bv_len s) <> PAGE_SIZE \/ bv_offset s <> 0 ->
    request_path current_flags b k
      (Done (BLK_STS_IOERR, [s])
         (logged (traced b k)
            (pr_err (bvec_misaligned (Z.min (bi_size b) (bv_len s))
                       (bv_offset s)))))
| path_read_outside (s : bio_vec) :
    Z.land current_flags PF_KTHREAD = 0 -> reaches_page_op b s ->
    bi_write b = false -> page_index b <> 0 ->
    request_path current_flags b k
      (Done (BLK_STS_OK,
             [with_page s (memset (bv_page s) 0 x00 PAGE_SIZE)])
         (logged (at_page_op b k) (pr_err read_outside_header)))
| path_read_empty (s : bio_vec) :
    Z.land current_flags PF_KTHREAD = 0 -> reaches_page_op b s ->
    bi_write b = false -> page_index b = 0 ->
    swap_header_page k = None ->
    request_path current_flags b k
      (Done (BLK_STS_OK,
             [with_page s (memset (bv_page s) 0 x00 PAGE_SIZE)])
         (at_page_op b k))
| path_read_header (s : bio_vec) (h : page) :
    Z.land current_flags PF_KTHREAD = 0 -> reaches_page_op b s ->
    bi_write b = false -> page_index b = 0 ->
    swap_header_page k = Some h ->
    request_path current_flags b k
      (Done (BLK_STS_OK,
             [with_page s (memcpy (bv_page s) 0 h PAGE_SIZE)])
         (mk_kernel None (page_allocator k) (dmesg (at_page_op b k))))
| path_write_outside (s : bio_vec) :
    Z.land current_flags PF_KTHREAD = 0 -> reaches_page_op b s ->
    bi_write b = true -> page_index b <> 0 ->
    request_path current_flags b k
      (Done (BLK_STS_IOERR, [s])
         (logged (logged (at_page_op b k) (pr_err write_outside_header))
            (pr_err (bvec_rw_failed (- EIO)))))
| path_write_over (s : bio_vec) (h : page) :
    Z.land current_flags PF_KTHREAD = 0 -> reaches_page_op b s ->
    bi_write b = true -> page_index b = 0 ->
    swap_header_page k = Some h ->
    request_path current_flags b k
      (Done (BLK_STS_OK, [s])
         (mk_kernel (Some (memcpy h 0 (bv_page s) PAGE_SIZE))
            (page_allocator k) (dmesg (at_page_op b k))))
| path_write_fresh (s : bio_vec) (p : page) (rest : list (option page)) :
    Z.land current_flags PF_KTHREAD = 0 -> reaches_page_op b s ->
    bi_write b = true -> page_index b = 0 ->
    swap_header_page k = None -> page_allocator k = Some p :: rest ->
    request_path current_flags b k
      (Done (BLK_STS_OK, [s])
         (mk_kernel (Some (memcpy p 0 (bv_page s) PAGE_SIZE))
            rest (dmesg (at_page_op b k))))
| path_write_fault (s : bio_vec) :
    Z.land current_flags PF_KTHREAD = 0 -> reaches_page_op b s ->
    bi_write b = true -> page_index b = 0 ->
    swap_header_page k = None ->
    page_allocator k = [] \/ (exists rest, page_allocator k = None :: rest) ->
    request_path current_flags b k Oops.

(** ** Reachable states *)

Definition pool_of_pages (pool : list (option page)) : Prop :=
  forall p, In (Some p) pool -> is_page p.

Definition request_of_pages (b : bio) : Prop :=
  Forall (fun s => is_page (bv_page s)) (bi_io_vec b).

(** The device starts with no header retained; every request that
    completes moves it on.  Pages are pages: those the allocator hands out
    and those the requests point at measure [PAGE_SIZE]. *)
Inductive reachable : kernel -> Prop :=
| reachable_boot (pool : list (option page)) :
    pool_of_pages pool -> reachable (mk_kernel None pool [])
| reachable_request (k : kernel) (current_flags : Z) (b : bio)
    (r : blk_status_t * list bio_vec) (k' : kernel) :
    reachable k -> request_of_pages b ->
    vbswap_make_request current_flags b k = Done r k' ->
    reachable k'.

Definition kernel_of_pages (k : kernel) : Prop :=
  (forall p, swap_header_page k = Some p -> is_page p)
  /\ pool_of_pages (page_allocator k).

(** The three things a completed request can have done to the header. *)
Definition captured (current_flags : Z) (b : bio) (k : kernel)
    (st : blk_status_t) (segs : list bio_vec) (k' : kernel) : Prop :=
  Z.land current_flags PF_KTHREAD = 0 /\ bi_write b = true
  /\ page_index b = 0 /\ st = BLK_STS_OK
  /\ exists s, reaches_page_op b s /\ segs = [s]
               /\ swap_header_page k' = Some (bv_page s).

Definition consumed (current_flags : Z) (b : bio) (k : kernel)
    (st : blk_status_t) (segs : list bio_vec) (k' : kernel) : Prop :=
  Z.land current_flags PF_KTHREAD = 0 /\ bi_write b = false
  /\ page_index b = 0 /\ st = BLK_STS_OK
  /\ exists s h, reaches_page_op b s /\ swap_header_page k = Some h
                 /\ segs = [with_page s h] /\ swap_header_page k' = None.

Definition untouched (k k' : kernel) : Prop :=
  swap_header_page k' = swap_header_page k.

(** The operations that must leave the header alone: a rejected origin,
    a failed validation, a request that ends in error, a read away from
    page index 0 and a read with nothing retained. *)
Definition leaves_header (current_flags : Z) (b : bio) (k : kernel)
    (st : blk_status_t) : Prop :=
  Z.land current_flags PF_KTHREAD <> 0
  \/ vbswap_valid_io_request b = 0
  \/ st = BLK_STS_IOERR
  \/ (bi_write b = false
      /\ (page_index b <> 0 \/ swap_header_page k = None)).

(** [p] is the page of a write at page index 0 that the device, in a
    reachable state, completed successfully. *)
Definition written_at_page_0 (p : page) : Prop :=
  exists k0 current_flags b s k1,
    reachable k0 /\ request_of_pages b
    /\ bi_write b = true /\ page_index b = 0
    /\ bi_io_vec b = [s] /\ bv_page s = p
    /\ vbswap_make_request current_flags b k0 = Done (BLK_STS_OK, [s]) k1.

(** ** The requests and states of the scenarios *)

Definition page_aa : page := repeat xaa (Z.to_nat PAGE_SIZE).
Definition page_55 : page := repeat x55 (Z.to_nat PAGE_SIZE).

(** The requests of the spec's scenarios: one full page at a sector. *)
Definition page_request (write : bool) (sector : Z) (p : page) : bio :=
  mk_bio write sector PAGE_SIZE [mk_bio_vec p PAGE_SIZE 0].

Definition empty_read_at_0 : bio := mk_bio false 0 0 [].

(** Requests of no bytes that carry a segment all the same: a read at
    sector 0 with a segment of no bytes, and a write at sector 8 with a
    segment of a full page. *)
Definition empty_read_with_segment : bio :=
  mk_bio false 0 0 [mk_bio_vec page_aa 0 0].
Definition empty_write_at_8_with_page : bio :=
  mk_bio true 8 0 [mk_bio_vec page_aa PAGE_SIZE 0].
Definition boot : kernel := mk_kernel None [] [].

(** Scenario C of the spec: a write of 8192 bytes at sector 0. *)
Definition two_page_write : bio :=
  mk_bio true 0 (2 * PAGE_SIZE)
    [mk_bio_vec page_aa PAGE_SIZE 0; mk_bio_vec page_55 PAGE_SIZE 0].

Definition first_boot : kernel := mk_kernel None [Some page_55] [].
Definition holding_aa : kernel :=
  mk_kernel (Some page_aa) []
    [pr_debug (request_trace WRITE 0 0 PAGE_SIZE);
     pr_debug (segment_trace WRITE 0 PAGE_SIZE)].

(** ** Sequences of requests *)

(** The requests that the block layer hands to the driver one after the
    other, each with the flags of the task that submits it. *)
Fixpoint submit_all (requests : list (Z * bio))
  : M (list (blk_status_t * list bio_vec)) :=
  match requests with
  | [] => ret []
  | (current_flags, b) :: rest =>
      r <- vbswap_make_request current_flags b ;;
      rs <- submit_all rest ;;
      ret (r :: rs)
  end.

(** A request that cannot get to a page operation at page index 0: its
    origin is refused, or it is addressed elsewhere, or it fails a check
    or has no byte to transfer. *)
Definition misses_header (request : Z * bio) : Prop :=
  Z.land (fst request) PF_KTHREAD <> 0
  \/ page_index (snd request) <> 0
  \/ forall s, ~ reaches_page_op (snd request) s.

(** ** The life of the module

    [create_device], [destroy_device], [vbswap_init] and [vbswap_exit]
    talk to the block layer only.  Each call into the kernel is recorded,
    in order and with its arguments, in [calls]; what the three calls that
    can fail return is given by the [host].  The driver's own data are the
    globals [vbswap_major] and [vbswap_disk] and, in [device], the state of
    the request path. *)

Definition ENOMEM : Z := 12.
Definition EBUSY : Z := 16.

(** The fields of the disk structure that the driver sets or tests ([fops]
    and [private_data], a static table and NULL, are left out); [queue] is
    the address of the request queue, [groups] the names of the
    attributes of [vbswap_disk_attrs]. *)
Record gendisk := mk_gendisk {
  queue : option Z;
  major : Z;
  first_minor : Z;
  disk_name : string;
  groups : list string
}.

Inductive queue_flag := QUEUE_FLAG_NONROT | QUEUE_FLAG_ADD_RANDOM.

Inductive module_message :=
| no_disk_structure
| no_disk_queue
| created_device (size : Z)
| no_major_number
| no_vbswap_device.

Inductive kcall :=
| register_blkdev (requested : Z) (name : string) (returned : Z)
| unregister_blkdev (number : Z) (name : string)
| alloc_disk (minors : Z) (returned : option gendisk)
| blk_alloc_queue (returned : option Z)
| put_disk (d : gendisk)
| blk_queue_make_request (q : Z)
| set_capacity (sectors : Z)
| blk_queue_physical_block_size (q size : Z)
| blk_queue_logical_block_size (q size : Z)
| blk_queue_io_min (q size : Z)
| blk_queue_io_opt (q size : Z)
| blk_queue_max_hw_sectors (q sectors : Z)
| add_disk (d : gendisk)
| queue_flag_set_unlocked (flag : queue_flag) (q : Z)
| queue_flag_clear_unlocked (flag : queue_flag) (q : Z)
| del_gendisk (d : gendisk)
| blk_cleanup_queue (q : Z)
| free_page (p : page)
| pr_err_line (m : module_message)
| pr_info_line (m : module_message).

Record host := mk_host {
  register_blkdev_gives : Z;
  alloc_disk_gives : option gendisk;
  blk_alloc_queue_gives : option Z
}.

Record module := mk_module {
  vbswap_major : Z;
  vbswap_disk : option gendisk;
  device : kernel;
  calls : list kcall
}.

Inductive outcome (A : Type) :=
| Finished (a : A) (m : module)
| Fault.
Arguments Finished {A} a m.
Arguments Fault {A}.

Definition K (A : Type) := module -> outcome A.

Definition retK {A} (a : A) : K A := fun m => Finished a m.
Definition bindK {A B} (c : K A) (f : A -> K B) : K B :=
  fun m => match c m with
           | Finished a m' => f a m'
           | Fault => Fault
           end.
Definition fault {A} : K A := fun _ => Fault.

Declare Scope module_scope.
Delimit Scope module_scope with module.
Notation "x <- c ;; f" := (bindK c (fun x => f))
  (at level 61, c at next level, right associativity) : module_scope.
Notation "c ;; f" := (bindK c (fun _ => f))
  (at level 61, right associativity) : module_scope.

Definition call (c : kcall) : K unit :=
  fun m => Finished tt (mk_module (vbswap_major m) (vbswap_disk m) (device m)
                          (calls m ++ [c])).
Definition get_vbswap_disk : K (option gendisk) :=
  fun m => Finished (vbswap_disk m) m.
Definition set_vbswap_disk (d : option gendisk) : K unit :=
  fun m => Finished tt (mk_module (vbswap_major m) d (device m) (calls m)).
Definition get_vbswap_major : K Z := fun m => Finished (vbswap_major m) m.
Definition set_vbswap_major (n : Z) : K unit :=
  fun m => Finished tt (mk_module n (vbswap_disk m) (device m) (calls m)).

Definition with_queue (d : gendisk) (q : option Z) : gendisk :=
  mk_gendisk q (major d) (first_minor d) (disk_name d) (groups d).

Definition vbswap_disk_attrs : list string :=
  ["disksize"%string; "max_comp_streams"%string].

Definition create_device (h : host) : K Z :=
  (call (alloc_disk 1 (alloc_disk_gives h)) ;;
   set_vbswap_disk (alloc_disk_gives h) ;;
   disk <- get_vbswap_disk ;;
   match disk with
   | None =>
       call (pr_err_line no_disk_structure) ;;
       retK (- ENOMEM)
   | Some d =>
       call (blk_alloc_queue (blk_alloc_queue_gives h)) ;;
       let d := with_queue d (blk_alloc_queue_gives h) in
       set_vbswap_disk (Some d) ;;
       match queue d with
       | None =>
           call (pr_err_line no_disk_queue) ;;
           call (put_disk d) ;;
           retK (- ENOMEM)
       | Some q =>
           call (blk_queue_make_request q) ;;
           number <- get_vbswap_major ;;
           let d :=
             mk_gendisk (Some q) number 0
               (fst (scnprintf 16 ("zram" ++ fmt_d 0)%string)) (groups d) in
           set_vbswap_disk (Some d) ;;
           call (set_capacity (Z.shiftr vbswap_disksize SECTOR_SHIFT)) ;;
           call (pr_info_line (created_device vbswap_disksize)) ;;
           call (blk_queue_physical_block_size q PAGE_SIZE) ;;
           call (blk_queue_logical_block_size q VBSWAP_LOGICAL_BLOCK_SIZE) ;;
           call (blk_queue_io_min q PAGE_SIZE) ;;
           call (blk_queue_io_opt q PAGE_SIZE) ;;
           call (blk_queue_max_hw_sectors q (PAGE_SIZE / SECTOR_SIZE)) ;;
           let d :=
             mk_gendisk (queue d) (major d) (first_minor d) (disk_name d)
               vbswap_disk_attrs in
           set_vbswap_disk (Some d) ;;
           call (add_disk d) ;;
           call (queue_flag_set_unlocked QUEUE_FLAG_NONROT q) ;;
           call (queue_flag_clear_unlocked QUEUE_FLAG_ADD_RANDOM q) ;;
           retK 0
       end
   end)%module.

(** The test of [vbswap_disk] guards the first two calls only; the queue
    is then read through the pointer whatever it is.  The calls are
    recorded as they are made; the field is read as the driver left it,
    the structure being taken to stay readable after [put_disk]. *)
Definition destroy_device : K unit :=
  (disk <- get_vbswap_disk ;;
   (match disk with
    | Some d => call (del_gendisk d) ;; call (put_disk d)
    | None => retK tt
    end) ;;
   disk <- get_vbswap_disk ;;
   match disk with
   | None => fault
   | Some d =>
       match queue d with
       | Some q => call (blk_cleanup_queue q)
       | None => retK tt
       end
   end)%module.

Definition vbswap_init (h : host) : K Z :=
  (call (register_blkdev 0 "zram" (register_blkdev_gives h)) ;;
   set_vbswap_major (register_blkdev_gives h) ;;
   number <- get_vbswap_major ;;
   if number <=? 0 then
     call (pr_err_line no_major_number) ;;
     retK (- EBUSY)
   else
     r <- create_device h ;;
     if negb (r =? 0) then
       call (pr_err_line no_vbswap_device) ;;
       number <- get_vbswap_major ;;
       call (unregister_blkdev number "zram") ;;
       retK r
     else
       retK 0)%module.

Definition get_swap_header_page_of_device : K (option page) :=
  fun m => Finished (swap_header_page (device m)) m.

Definition vbswap_exit : K unit :=
  (destroy_device ;;
   number <- get_vbswap_major ;;
   call (unregister_blkdev number "vbswap") ;;
   header <- get_swap_header_page_of_device ;;
   match header with
   | Some p => call (free_page p)
   | None => retK tt
   end)%module.

(** The module with the request path in state [k]. *)
Definition with_device (m : module) (k : kernel) : module :=
  mk_module (vbswap_major m) (vbswap_disk m) k (calls m).

(** The registrations of block device numbers in force after a series of
    calls, given those [held] before: a dynamic registration that returned
    a number stands until a call of [unregister_blkdev] gives that number
    and that name. *)
Fixpoint registrations (cs : list kcall) (held : list (Z * string))
  : list (Z * string) :=
  match cs with
  | [] => held
  | register_blkdev _ name returned :: rest =>
      registrations rest
        (if 0 <? returned then held ++ [(returned, name)] else held)
  | unregister_blkdev number name :: rest =>
      registrations rest
        (filter (fun e => negb ((fst e =? number) && String.eqb (snd e) name))
           held)
  | _ :: rest => registrations rest held
  end.

(** The references to disk structures taken by [alloc_disk] and not yet
    dropped by [put_disk]. *)
Fixpoint disks_held (cs : list kcall) : Z :=
  match cs with
  | [] => 0
  | alloc_disk _ (Some _) :: rest => 1 + disks_held rest
  | put_disk _ :: rest => disks_held rest - 1
  | _ :: rest => disks_held rest
  end.

(** A request within the limits given to the block layer: inside the
    capacity [cap] (in sectors), start and length whole logical blocks of
    [lbs] bytes, at most [maxs] sectors long, and not empty. *)
Definition within_limits (b : bio) (cap lbs maxs : Z) : Prop :=
  0 <= bi_sector b /\ 0 < bi_size b
  /\ bi_sector b * SECTOR_SIZE + bi_size b <= cap * SECTOR_SIZE
  /\ (bi_sector b * SECTOR_SIZE) mod lbs = 0
  /\ bi_size b mod lbs = 0
  /\ bi_size b <= maxs * SECTOR_SIZE.

(** The disk as [create_device] leaves it when it succeeds, and the calls
    it has then made, given the structure [d] that [alloc_disk] returned,
    the queue [q] and the number registered. *)
Definition the_disk (q number : Z) : gendisk :=
  mk_gendisk (Some q) number 0 "zram0" vbswap_disk_attrs.

Definition setup_calls (d : gendisk) (q number : Z) : list kcall :=
  [alloc_disk 1 (Some d); blk_alloc_queue (Some q);
   blk_queue_make_request q;
   set_capacity (Z.shiftr vbswap_disksize SECTOR_SHIFT);
   pr_info_line (created_device vbswap_disksize);
   blk_queue_physical_block_size q PAGE_SIZE;
   blk_queue_logical_block_size q VBSWAP_LOGICAL_BLOCK_SIZE;
   blk_queue_io_min q PAGE_SIZE;
   blk_queue_io_opt q PAGE_SIZE;
   blk_queue_max_hw_sectors q (PAGE_SIZE / SECTOR_SIZE);
   add_disk (the_disk q number);
   queue_flag_set_unlocked QUEUE_FLAG_NONROT q;
   queue_flag_clear_unlocked QUEUE_FLAG_ADD_RANDOM q].

(** A module freshly loaded into a kernel that has a page to give, and a
    host on which everything succeeds. *)
Definition blank_disk : gendisk := mk_gendisk None 0 0 EmptyString [].
Definition unloaded : module := mk_module 0 None first_boot [].
Definition kind_host : host := mk_host 252 (Some blank_disk) (Some 77).
Definition loaded : module :=
  mk_module 252 (Some (the_disk 77 252)) first_boot
    (register_blkdev 0 "zram" 252 :: setup_calls blank_disk 77 252).

(** The calls of [vbswap_exit] on a module with the disk [d]. *)
Definition unload_calls (d : gendisk) (number : Z) (header : option page)
  : list kcall :=
  [del_gendisk d; put_disk d]
  ++ match queue d with Some q => [blk_cleanup_queue q] | None => [] end
  ++ [unregister_blkdev number "vbswap"]
  ++ match header with Some p => [free_page p] | None => [] end.

(** ** The device as a machine on the header alone

    What a request returns and what it leaves retained, computed from the
    retained page, the flags of the caller and the request, without the
    allocator and without the log. *)
Definition header_machine (header : option page) (current_flags : Z)
    (b : bio) : (blk_status_t * list bio_vec) * option page :=
  if negb (Z.land current_flags PF_KTHREAD =? 0)
     || (vbswap_valid_io_request b =? 0)
     || (bi_size b >? PAGE_SIZE) || (bi_vcnt b >? 1)
  then ((BLK_STS_IOERR, bi_io_vec b), header)
  else
    match bi_io_vec b with
    | [] => ((BLK_STS_OK, []), header)
    | s :: _ =>
        if bi_size b <=? 0 then ((BLK_STS_OK, bi_io_vec b), header)
        else if negb (Z.min (bi_size b) (bv_len s) =? PAGE_SIZE)
                || negb (bv_offset s =? 0) then
          ((BLK_STS_IOERR, bi_io_vec b), header)
        else if bi_write b then
          if page_index b =? 0
          then ((BLK_STS_OK, [s]), Some (bv_page s))
          else ((BLK_STS_IOERR, [s]), header)
        else
          match page_index b =? 0, header with
          | true, Some h => ((BLK_STS_OK, [with_page s h]), None)
          | _, _ => ((BLK_STS_OK, [with_page s zero_page]), header)
          end
    end.

Fixpoint header_machine_run (header : option page)
    (requests : list (Z * bio))
  : list (blk_status_t * list bio_vec) * option page :=
  match requests with
  | [] => ([], header)
  | (current_flags, b) :: rest =>
      let '(r, header') := header_machine header current_flags b in
      let '(rs, final) := header_machine_run header' rest in
      (r :: rs, final)
  end.

(** ** Requests and devices of the scenarios *)

(** A refused origin, a read elsewhere and a write elsewhere. *)
Definition other_requests : list (Z * bio) :=
  [(PF_KTHREAD, page_request true 0 page_55);
   (0, page_request false 40 page_55);
   (0, page_request true 8 page_55)].

(** A segment of 512 bytes at offset 1024 of a page. *)
Definition sector_segment : bio_vec := mk_bio_vec page_55 512 1024.

(** A write of a page at page index 0 and, from a kernel thread, another
    one. *)
Definition two_writes : list (Z * bio) :=
  [(0, page_request true 0 page_aa);
   (PF_KTHREAD, page_request true 0 page_55)].

(** A device with two pages in store at its start, and the same after the
    write of [page_aa] at page index 0 and a refused write. *)
Definition well_stocked_boot : kernel :=
  mk_kernel None [Some page_aa; Some page_55] [].
Definition holding_aa_in_store : kernel :=
  mk_kernel (Some page_aa) [Some page_55]
    [pr_debug (request_trace WRITE 0 0 PAGE_SIZE);
     pr_debug (segment_trace WRITE 0 PAGE_SIZE)].

(** ** Constants, evaluated *)

Lemma capacity_in_sectors : Z.shiftr vbswap_disksize SECTOR_SHIFT = 12582912.
Proof. reflexivity. Qed.

Lemma PAGE_SIZE_value : PAGE_SIZE = 4096.
Proof. reflexivity. Qed.

Lemma land_low_bits (x : Z) (n : Z) :
  0 <= n -> Z.land x (Z.shiftl 1 n - 1) = x mod 2 ^ n.
Proof.
  intros Hn. rewrite Z.shiftl_1_l, Z.sub_1_r, <- Z.ones_equiv.
  now apply Z.land_ones.
Qed.

(** ** The validator *)

Lemma valid_io_request_cases (b : bio) :
  (vbswap_valid_io_request b = 0
   /\ (bi_sector b >= 12582912 \/ bi_sector b mod 8 <> 0
       \/ bi_size b mod 4096 <> 0))
  \/ (vbswap_valid_io_request b = 1
      /\ bi_sector b < 12582912 /\ bi_sector b mod 8 = 0
      /\ bi_size b mod 4096 = 0).
Proof.
  unfold vbswap_valid_io_request.
  rewrite capacity_in_sectors.
  unfold VBSWAP_SECTOR_PER_LOGICAL_BLOCK, VBSWAP_LOGICAL_BLOCK_SIZE.
  rewrite !land_low_bits by (vm_compute; discriminate).
  change (2 ^ (VBSWAP_LOGICAL_BLOCK_SHIFT - SECTOR_SHIFT)) with 8.
  change (2 ^ VBSWAP_LOGICAL_BLOCK_SHIFT) with 4096.
  destruct (Z.geb_spec (bi_sector b) 12582912) as [Hs | Hs]; simpl.
  - left. split; [reflexivity | left; lia].
  - destruct (Z.eqb_spec (bi_sector b mod 8) 0) as [Ha | Ha]; simpl.
    + destruct (Z.eqb_spec (bi_size b mod 4096) 0) as [Hl | Hl]; simpl.
      * right. repeat split; assumption || lia.
      * left. split; [reflexivity | right; right; assumption].
    + left. split; [reflexivity | right; left; assumption].
Qed.

(** ** Pages *)

Lemma memset_full (d : page) (c : byte) :
  is_page d -> memset d 0 c PAGE_SIZE = repeat c (Z.to_nat PAGE_SIZE).
Proof.
  unfold is_page, memset. intros Hd.
  change (Z.to_nat 0) with O. rewrite Z.add_0_l.
  rewrite skipn_all2 by lia.
  cbn [firstn app]. apply app_nil_r.
Qed.

Lemma memcpy_full (d src : page) :
  is_page d -> is_page src -> memcpy d 0 src PAGE_SIZE = src.
Proof.
  unfold is_page, memcpy. intros Hd Hs.
  change (Z.to_nat 0) with O. rewrite Z.add_0_l.
  rewrite skipn_all2 by lia.
  rewrite (firstn_all2 src) by lia.
  cbn [firstn app]. apply app_nil_r.
Qed.

(** A copy of one page out of a retained buffer that a page-sized copy of
    [src] filled gives [src] back, whatever the buffer held or measured. *)
Lemma memcpy_roundtrip (d h src : page) :
  is_page d -> is_page src ->
  memcpy d 0 (memcpy h 0 src PAGE_SIZE) PAGE_SIZE = src.
Proof.
  unfold is_page. intros Hd Hs.
  unfold memcpy at 1. change (Z.to_nat 0) with O. rewrite Z.add_0_l.
  rewrite skipn_all2 by lia.
  unfold memcpy. change (Z.to_nat 0) with O. rewrite Z.add_0_l.
  cbn [firstn app].
  rewrite (firstn_all2 src) by lia.
  rewrite firstn_app, (firstn_all2 src) by lia.
  rewrite Hs, Nat.sub_diag. cbn [firstn]. now rewrite !app_nil_r.
Qed.

(** ** The page operations, case by case *)

Lemma bvec_read_holding (bvec : bio_vec) (k : kernel) (h : page) :
  swap_header_page k = Some h ->
  vbswap_bvec_read bvec 0 k =
  Done (0, with_page bvec
             (memcpy (bv_page bvec) (bv_offset bvec) h (bv_len bvec)))
       (mk_kernel None (page_allocator k) (dmesg k)).
Proof.
  intros Hh. unfold vbswap_bvec_read, bind, ret, get_swap_header_page.
  cbn [Z.eqb negb]. now rewrite Hh.
Qed.

Lemma bvec_read_empty (bvec : bio_vec) (k : kernel) :
  swap_header_page k = None ->
  vbswap_bvec_read bvec 0 k =
  Done (0, with_page bvec
             (memset (bv_page bvec) (bv_offset bvec) x00 (bv_len bvec)))
       k.
Proof.
  intros Hh. unfold vbswap_bvec_read, bind, ret, get_swap_header_page.
  cbn [Z.eqb negb]. now rewrite Hh.
Qed.

Lemma bvec_read_outside (bvec : bio_vec) (index : Z) (k : kernel) :
  index <> 0 ->
  vbswap_bvec_read bvec index k =
  Done (0, with_page bvec
             (memset (bv_page bvec) (bv_offset bvec) x00 (bv_len bvec)))
       (logged k (pr_err read_outside_header)).
Proof.
  intros Hi. unfold vbswap_bvec_read, bind, ret, get_swap_header_page, log.
  apply Z.eqb_neq in Hi. rewrite Hi. cbn [negb]. reflexivity.
Qed.

Lemma bvec_write_outside (bvec : bio_vec) (index : Z) (k : kernel) :
  index <> 0 ->
  vbswap_bvec_write bvec index k =
  Done (- EIO, bvec) (logged k (pr_err write_outside_header)).
Proof.
  intros Hi. unfold vbswap_bvec_write, bind, ret, log.
  apply Z.eqb_neq in Hi. rewrite Hi. reflexivity.
Qed.

Lemma bvec_write_holding (bvec : bio_vec) (k : kernel) (h : page) :
  swap_header_page k = Some h ->
  vbswap_bvec_write bvec 0 k =
  Done (0, bvec)
       (mk_kernel (Some (memcpy h 0 (bv_page bvec) PAGE_SIZE))
                  (page_allocator k) (dmesg k)).
Proof.
  intros Hh.
  unfold vbswap_bvec_write, bind, ret, get_swap_header_page,
    set_swap_header_page.
  cbn [Z.eqb negb]. rewrite Hh. cbn. rewrite Hh. reflexivity.
Qed.

Lemma bvec_write_fresh (bvec : bio_vec) (k : kernel) (p : page)
    (rest : list (option page)) :
  swap_header_page k = None -> page_allocator k = Some p :: rest ->
  vbswap_bvec_write bvec 0 k =
  Done (0, bvec)
       (mk_kernel (Some (memcpy p 0 (bv_page bvec) PAGE_SIZE)) rest (dmesg k)).
Proof.
  intros Hh Ha.
  unfold vbswap_bvec_write, bind, ret, get_swap_header_page,
    set_swap_header_page, alloc_page.
  cbn [Z.eqb negb]. rewrite Hh, Ha. reflexivity.
Qed.

Lemma bvec_write_no_memory (bvec : bio_vec) (k : kernel) :
  swap_header_page k = None ->
  (page_allocator k = [] \/ exists rest, page_allocator k = None :: rest) ->
  vbswap_bvec_write bvec 0 k = Oops.
Proof.
  intros Hh Ha.
  unfold vbswap_bvec_write, bind, ret, get_swap_header_page,
    set_swap_header_page, alloc_page, oops.
  cbn [Z.eqb negb]. rewrite Hh.
  destruct Ha as [Ha | [rest Ha]]; rewrite Ha; cbn; try rewrite Hh; reflexivity.
Qed.

(** ** The dispatcher, check by check *)

Lemma sector_offset_zero (b : bio) :
  vbswap_valid_io_request b = 1 ->
  Z.shiftl (Z.land (bi_sector b) (SECTORS_PER_PAGE - 1)) SECTOR_SHIFT = 0.
Proof.
  intros Hv.
  destruct (valid_io_request_cases b) as [[H0 _] | [_ [_ [Ha _]]]];
    [congruence |].
  unfold SECTORS_PER_PAGE.
  rewrite land_low_bits by (vm_compute; discriminate).
  change (2 ^ SECTORS_PER_PAGE_SHIFT) with 8.
  rewrite Ha. reflexivity.
Qed.

Lemma dispatch_invalid (b : bio) (rw : Z) (k : kernel) :
  vbswap_valid_io_request b = 0 ->
  __vbswap_make_request b rw k =
  Done (BLK_STS_IOERR, bi_io_vec b)
       (logged k (pr_err (invalid_io_request (bi_sector b) (bi_size b)
                            vbswap_disksize))).
Proof.
  intros Hv. unfold __vbswap_make_request. rewrite Hv. reflexivity.
Qed.

Lemma dispatch_valid (b : bio) (rw : Z) (k : kernel) :
  vbswap_valid_io_request b = 1 ->
  __vbswap_make_request b rw k =
  let k1 :=
    logged k (pr_debug (request_trace rw (page_index b) 0 (bi_size b))) in
  if bi_size b >? PAGE_SIZE then Done (BLK_STS_IOERR, bi_io_vec b) k1
  else if bi_vcnt b >? 1 then Done (BLK_STS_IOERR, bi_io_vec b) k1
  else bio_for_each_segment rw (page_index b) (bi_size b) []
         (bi_io_vec b) k1.
Proof.
  intros Hv. unfold __vbswap_make_request.
  rewrite Hv, (sector_offset_zero b Hv).
  cbn [Z.eqb negb]. unfold bind, log, bio_io_error, ret, page_index, logged.
  cbv zeta.
  destruct (bi_size b >? PAGE_SIZE); [reflexivity |].
  destruct (bi_vcnt b >? 1); reflexivity.
Qed.

Lemma with_page_same (s : bio_vec) : with_page s (bv_page s) = s.
Proof. now destruct s. Qed.

Lemma segments_none (rw index size : Z) (seen : list bio_vec) (k : kernel) :
  bio_for_each_segment rw index size seen [] k = Done (BLK_STS_OK, seen) k.
Proof. reflexivity. Qed.

(** With no byte to go the loop is over, whatever segments are left. *)
Lemma segments_no_bytes (rw index size : Z) (seen todo : list bio_vec)
    (k : kernel) :
  size <= 0 ->
  bio_for_each_segment rw index size seen todo k
  = Done (BLK_STS_OK, seen ++ todo) k.
Proof.
  intros Hsz. destruct todo as [| s rest]; cbn [bio_for_each_segment].
  - now rewrite app_nil_r.
  - assert ((0 <? size) = false) as -> by (apply Z.ltb_ge; lia).
    reflexivity.
Qed.

Lemma segments_misaligned (rw index size : Z) (seen rest : list bio_vec)
    (s : bio_vec) (k : kernel) :
  0 < size ->
  Z.min size (bv_len s) <> PAGE_SIZE \/ bv_offset s <> 0 ->
  bio_for_each_segment rw index size seen (s :: rest) k =
  Done (BLK_STS_IOERR, seen ++ s :: rest)
       (logged k (pr_err (bvec_misaligned (Z.min size (bv_len s))
                            (bv_offset s)))).
Proof.
  intros Hsz Hs. cbn [bio_for_each_segment].
  assert ((0 <? size) = true) as -> by (apply Z.ltb_lt; lia).
  cbv zeta. unfold bio_iter_iovec. cbn [bv_len bv_offset bv_page].
  assert (negb (Z.min size (bv_len s) =? PAGE_SIZE)
          || negb (bv_offset s =? 0) = true) as ->.
  { destruct Hs as [Hs | Hs]; apply Z.eqb_neq in Hs; rewrite Hs;
      [reflexivity | apply orb_true_r]. }
  reflexivity.
Qed.

Lemma segments_step (rw index size : Z) (seen rest : list bio_vec)
    (s : bio_vec) (k : kernel) :
  0 < size ->
  Z.min size (bv_len s) = PAGE_SIZE -> bv_offset s = 0 ->
  bio_for_each_segment rw index size seen (s :: rest) k =
  match vbswap_bvec_rw (mk_bio_vec (bv_page s) PAGE_SIZE 0) index rw
          (logged k (pr_debug (segment_trace rw index PAGE_SIZE))) with
  | Oops => Oops
  | Done (r, bvec') k' =>
      if r <? 0 then
        Done (BLK_STS_IOERR, seen ++ with_page s (bv_page bvec') :: rest)
             (logged k' (if negb (r =? - ENOSPC)
                         then pr_err (bvec_rw_failed r)
                         else pr_debug (bvec_rw_failed r)))
      else bio_for_each_segment rw (u32 (index + 1)) (size - PAGE_SIZE)
             (seen ++ [with_page s (bv_page bvec')]) rest k'
  end.
Proof.
  intros Hsz Hl Ho. cbn [bio_for_each_segment].
  assert ((0 <? size) = true) as -> by (apply Z.ltb_lt; lia).
  cbv zeta. unfold bio_iter_iovec. cbn [bv_len bv_offset bv_page].
  rewrite Hl, Ho, !Z.eqb_refl. cbn [negb orb].
  unfold bind at 1. unfold log at 1. unfold bind at 1.
  fold (logged k (pr_debug (segment_trace rw index PAGE_SIZE))).
  destruct (vbswap_bvec_rw _ index rw _) as [[r bvec'] k' |]; [| reflexivity].
  destruct (r <? 0); [| reflexivity].
  unfold bind, bio_io_error, ret.
  destruct (negb (r =? - ENOSPC)); reflexivity.
Qed.

(** What a run leaves of the state when it only prints. *)
Lemma only_logged_refl (f : printk -> bool) (k : kernel) : only_logged f k k.
Proof.
  repeat split. exists []. now rewrite app_nil_r.
Qed.

Lemma only_logged_line (f : printk -> bool) (k k' : kernel) (l : printk) :
  only_logged f k k' -> f l = false -> only_logged f k (logged k' l).
Proof.
  intros (Hh & Ha & lines & Hd & Hf) Hl. repeat split; cbn; try assumption.
  exists (lines ++ [l]). rewrite Hd, app_assoc. split; [reflexivity |].
  rewrite existsb_app, Hf. cbn. now rewrite Hl.
Qed.

Lemma gate_passes (current_flags : Z) (b : bio) (k : kernel) :
  Z.land current_flags PF_KTHREAD = 0 ->
  vbswap_make_request current_flags b k =
  __vbswap_make_request b (bio_data_dir b) k.
Proof.
  intros Hf. unfold vbswap_make_request. rewrite Hf. reflexivity.
Qed.

Lemma gate_rejects (current_flags : Z) (b : bio) (k : kernel) :
  Z.land current_flags PF_KTHREAD <> 0 ->
  vbswap_make_request current_flags b k = Done (BLK_STS_IOERR, bi_io_vec b) k.
Proof.
  intros Hf. unfold vbswap_make_request.
  apply Z.eqb_neq in Hf. rewrite Hf. reflexivity.
Qed.

Lemma page_index_in_range (b : bio) :
  0 <= bi_sector b -> vbswap_valid_io_request b = 1 ->
  page_index b = Z.shiftr (bi_sector b) 3
  /\ (page_index b = 0 -> bi_sector b = 0).
Proof.
  intros H0 Hv.
  destruct (valid_io_request_cases b) as [[Hz _] | [_ [Hs [Ha _]]]];
    [congruence |].
  unfold page_index, u32.
  change SECTORS_PER_PAGE_SHIFT with 3.
  rewrite Z.shiftr_div_pow2 by lia. change (2 ^ 3) with 8.
  assert (0 <= bi_sector b / 8 < 2 ^ 32) as Hr.
  { split; [apply Z.div_pos; lia |].
    apply Z.div_lt_upper_bound; lia. }
  rewrite Z.mod_small by exact Hr.
  split; [reflexivity |].
  intros Hq. pose proof (Z.div_mod (bi_sector b) 8 ltac:(lia)). lia.
Qed.

(** The segment that the loop hands to the page operation of a request
    that gets there: the page of [s], one page long from its start. *)
Lemma reaches_full_page (b : bio) (s : bio_vec) :
  reaches_page_op b s ->
  0 < bi_size b <= PAGE_SIZE
  /\ Z.min (bi_size b) (bv_len s) = PAGE_SIZE.
Proof.
  intros (_ & Hsz & _ & Hl & _). rewrite Hsz.
  rewrite PAGE_SIZE_value in *. lia.
Qed.

(** A request of one full page reaches its page operation, and the result
    of that operation decides the completion. *)
Lemma dispatch_one_page (current_flags : Z) (b : bio) (s : bio_vec)
    (k : kernel) :
  Z.land current_flags PF_KTHREAD = 0 -> reaches_page_op b s ->
  vbswap_make_request current_flags b k =
  match vbswap_bvec_rw (mk_bio_vec (bv_page s) PAGE_SIZE 0) (page_index b)
          (bio_data_dir b)
          (logged
             (logged k (pr_debug (request_trace (bio_data_dir b) (page_index b)
                                    0 (bi_size b))))
             (pr_debug (segment_trace (bio_data_dir b) (page_index b)
                          PAGE_SIZE))) with
  | Oops => Oops
  | Done (r, bvec') k' =>
      if r <? 0 then
        Done (BLK_STS_IOERR, [with_page s (bv_page bvec')])
             (logged k' (if negb (r =? - ENOSPC)
                         then pr_err (bvec_rw_failed r)
                         else pr_debug (bvec_rw_failed r)))
      else Done (BLK_STS_OK, [with_page s (bv_page bvec')]) k'
  end.
Proof.
  intros Hf Hreq.
  destruct (reaches_full_page b s Hreq) as [Hpos Hmin].
  destruct Hreq as (Hv & Hsz & Hvec & Hl & Ho).
  rewrite (gate_passes _ _ _ Hf), (dispatch_valid _ _ _ Hv). cbv zeta.
  assert ((bi_size b >? PAGE_SIZE) = false) as ->
      by (rewrite Z.gtb_ltb; apply Z.ltb_ge; lia).
  unfold bi_vcnt. rewrite Hvec.
  change (Z.of_nat (List.length [s]) >? 1) with false. cbv iota.
  rewrite (segments_step _ _ _ _ _ _ _ (proj1 Hpos) Hmin Ho).
  destruct (vbswap_bvec_rw _ _ _ _) as [[r bvec'] k' |]; [| reflexivity].
  destruct (r <? 0); [reflexivity |].
  rewrite segments_none. reflexivity.
Qed.

(** ** Every way a request can go, proved *)

Lemma gtb_false (a b : Z) : a <= b -> (a >? b) = false.
Proof. intros H. rewrite Z.gtb_ltb. now apply Z.ltb_ge. Qed.

Lemma gtb_true (a b : Z) : a > b -> (a >? b) = true.
Proof. intros H. rewrite Z.gtb_ltb. apply Z.ltb_lt. lia. Qed.

(** Step through the gate and the validator, and decide the two size
    tests from the hypotheses at hand. *)
Ltac enter_dispatcher Hf Hv :=
  rewrite (gate_passes _ _ _ Hf), (dispatch_valid _ _ _ Hv); cbv zeta;
  repeat first [rewrite gtb_false by lia | rewrite gtb_true by lia].

Lemma make_request_path (current_flags : Z) (b : bio) (k : kernel) :
  request_path current_flags b k (vbswap_make_request current_flags b k).
Proof.
  destruct (Z.eq_dec (Z.land current_flags PF_KTHREAD) 0) as [Hf | Hf].
  2: { rewrite (gate_rejects _ _ _ Hf). now apply path_rejected. }
  destruct (valid_io_request_cases b) as [[Hv _] | [Hv _]].
  { rewrite (gate_passes _ _ _ Hf), (dispatch_invalid _ _ _ Hv).
    now apply path_invalid. }
  destruct (Z_gt_le_dec (bi_size b) PAGE_SIZE) as [Hsz | Hsz].
  { enter_dispatcher Hf Hv.
    apply path_too_large; [assumption | assumption | left; lia]. }
  destruct (Z_gt_le_dec (bi_vcnt b) 1) as [Hn | Hn].
  { enter_dispatcher Hf Hv.
    apply path_too_large; [assumption | assumption | right; lia]. }
  destruct (bi_io_vec b) as [| s [| s2 rest]] eqn:Hvec.
  - enter_dispatcher Hf Hv.
    rewrite Hvec, segments_none. now apply path_no_segment.
  - destruct (Z_le_gt_dec (bi_size b) 0) as [Hnone | Hpos].
    { enter_dispatcher Hf Hv.
      rewrite Hvec, segments_no_bytes by exact Hnone.
      now apply path_no_bytes. }
    destruct (Z.eq_dec (Z.min (bi_size b) (bv_len s)) PAGE_SIZE) as [Hl | Hl].
    2: { enter_dispatcher Hf Hv.
         rewrite Hvec, segments_misaligned by (lia || (left; exact Hl)).
         apply path_misaligned; auto. lia. }
    destruct (Z.eq_dec (bv_offset s) 0) as [Ho | Ho].
    2: { enter_dispatcher Hf Hv.
         rewrite Hvec, segments_misaligned by (lia || (right; exact Ho)).
         apply path_misaligned; auto. lia. }
    assert (reaches_page_op b s) as Hreq
        by (repeat split; try assumption; lia).
    rewrite (dispatch_one_page _ _ _ _ Hf Hreq).
    unfold bio_data_dir at 1, vbswap_bvec_rw.
    destruct (bi_write b) eqn:Hw; cbn [Z.eqb WRITE READ].
    + destruct (Z.eq_dec (page_index b) 0) as [Hi | Hi].
      * rewrite Hi at 1.
        destruct (swap_header_page k) as [h |] eqn:Hh.
        -- rewrite (bvec_write_holding _ _ h) by exact Hh.
           cbn [Z.ltb Z.compare bv_page]. rewrite with_page_same.
           exact (path_write_over current_flags b k s h Hf Hreq Hw Hi Hh).
        -- destruct (page_allocator k) as [| [p |] rest] eqn:Ha.
           ++ rewrite bvec_write_no_memory by (auto; left; exact Ha).
              apply (path_write_fault current_flags b k s); auto.
           ++ rewrite (bvec_write_fresh _ _ p rest) by assumption.
              cbn [Z.ltb Z.compare bv_page]. rewrite with_page_same.
              exact (path_write_fresh current_flags b k s p rest
                       Hf Hreq Hw Hi Hh Ha).
           ++ rewrite bvec_write_no_memory
                by (auto; right; exists rest; exact Ha).
              apply (path_write_fault current_flags b k s); eauto.
      * rewrite bvec_write_outside by exact Hi.
        change (- EIO <? 0) with true. cbv iota.
        change (negb (- EIO =? - ENOSPC)) with true. cbv iota.
        cbn [bv_page]. rewrite with_page_same.
        exact (path_write_outside current_flags b k s Hf Hreq Hw Hi).
    + destruct (Z.eq_dec (page_index b) 0) as [Hi | Hi].
      * rewrite Hi at 1.
        destruct (swap_header_page k) as [h |] eqn:Hh.
        -- rewrite (bvec_read_holding _ _ h) by exact Hh.
           cbn [Z.ltb Z.compare]. unfold with_page.
           cbn [bv_page bv_len bv_offset].
           exact (path_read_header current_flags b k s h Hf Hreq Hw Hi Hh).
        -- rewrite bvec_read_empty by exact Hh.
           cbn [Z.ltb Z.compare]. unfold with_page.
           cbn [bv_page bv_len bv_offset].
           exact (path_read_empty current_flags b k s Hf Hreq Hw Hi Hh).
      * rewrite bvec_read_outside by exact Hi.
        cbn [Z.ltb Z.compare]. unfold with_page.
        cbn [bv_page bv_len bv_offset].
        exact (path_read_outside current_flags b k s Hf Hreq Hw Hi).
  - exfalso. unfold bi_vcnt in Hn. rewrite Hvec in Hn.
    cbn [List.length] in Hn. lia.
Qed.

Ltac printed :=
  repeat (apply only_logged_line; [| reflexivity]); apply only_logged_refl.

Lemma page_request_one_page (write : bool) (sector : Z) (p : page) :
  0 <= sector -> vbswap_valid_io_request (page_request write sector p) = 1 ->
  is_page p ->
  one_page_request (page_request write sector p) (mk_bio_vec p PAGE_SIZE 0).
Proof.
  intros H0 Hv Hp.
  unfold one_page_request, reaches_page_op, page_request. cbn.
  repeat split; try assumption; reflexivity.
Qed.

(** ** Origin and validation *)

(** A kernel thread is refused however well-formed its request is. *)
Example kernel_thread_is_refused :
  vbswap_make_request PF_KTHREAD (page_request true 0 page_aa) first_boot
  = Done (BLK_STS_IOERR, [mk_bio_vec page_aa PAGE_SIZE 0]) first_boot.
Proof. reflexivity. Qed.

(** Scenario D of the spec: a read that starts at the capacity. *)
Example read_at_capacity_fails :
  vbswap_make_request 0 (page_request false 12582912 page_55) first_boot
  = Done (BLK_STS_IOERR, [mk_bio_vec page_55 PAGE_SIZE 0])
         (logged first_boot
            (pr_err (invalid_io_request 12582912 4096 6442450944))).
Proof. reflexivity. Qed.

(** C2 (origin rejection).  A request issued from a kernel thread, the
    context of the host's paging subsystem, completes at once with an I/O
    error whatever its parameters are: the segments, the retained page, the
    allocator and the log are exactly as before, so no check and no page
    operation ran.  From any other context the gate hands the request to
    the dispatcher, whose first step is the validation. *)
Theorem origin_rejection (current_flags : Z) (b : bio) (k : kernel) :
  (Z.land current_flags PF_KTHREAD <> 0 ->
   vbswap_make_request current_flags b k
   = Done (BLK_STS_IOERR, bi_io_vec b) k)
  /\ (Z.land current_flags PF_KTHREAD = 0 ->
      vbswap_make_request current_flags b k
      = __vbswap_make_request b (bio_data_dir b) k).
Proof.
  split; [apply gate_rejects | apply gate_passes].
Qed.

(** C5 (bounds and alignment).  The validator rejects a request exactly
    when its start sector is at or past the capacity of 12582912 sectors
    (6 GiB in sectors of 512 bytes), or is not a multiple of 8, or its
    byte length is not a multiple of 4096.  A rejected request completes
    with an I/O error, the retained page and the allocator untouched and
    no page operation run; a request that starts exactly at the capacity
    is rejected. *)
Theorem bounds_alignment_validation (current_flags : Z) (b : bio)
    (k : kernel) :
  (vbswap_valid_io_request b = 0 <->
   bi_sector b >= 12582912 \/ bi_sector b mod 8 <> 0
   \/ bi_size b mod 4096 <> 0)
  /\ (vbswap_valid_io_request b = 0 ->
      exists k',
        vbswap_make_request current_flags b k
        = Done (BLK_STS_IOERR, bi_io_vec b) k'
        /\ only_logged is_page_op k k')
  /\ Z.shiftr vbswap_disksize SECTOR_SHIFT = 12582912
  /\ vbswap_disksize = 6 * 1024 ^ 3
  /\ (bi_sector b = Z.shiftr vbswap_disksize SECTOR_SHIFT ->
      vbswap_valid_io_request b = 0).
Proof.
  assert (vbswap_valid_io_request b = 0 <->
          bi_sector b >= 12582912 \/ bi_sector b mod 8 <> 0
          \/ bi_size b mod 4096 <> 0) as Hiff.
  { destruct (valid_io_request_cases b) as [[Hv Hc] | [Hv Hc]].
    - split; auto.
    - split; [congruence | lia]. }
  split; [exact Hiff |]. split; [| split; [| split]].
  - intros Hv.
    destruct (Z.eq_dec (Z.land current_flags PF_KTHREAD) 0) as [Hf | Hf].
    + rewrite (gate_passes _ _ _ Hf), (dispatch_invalid _ _ _ Hv).
      eexists. split; [reflexivity |].
      apply only_logged_line; [apply only_logged_refl | reflexivity].
    + rewrite (gate_rejects _ _ _ Hf).
      eexists. split; [reflexivity | apply only_logged_refl].
  - reflexivity.
  - reflexivity.
  - intros Hs. apply Hiff. left. rewrite Hs, capacity_in_sectors. lia.
Qed.

(** C6 does not extend to a request of no bytes: a read of length 0 that
    contains no segment, hence not exactly one, is completed
    successfully. *)
Lemma segment_shape_counterexample :
  List.length (bi_io_vec empty_read_at_0) <> 1%nat
  /\ vbswap_make_request 0 empty_read_at_0 boot
     = Done (BLK_STS_OK, []) (traced empty_read_at_0 boot).
Proof. split; [discriminate | reflexivity]. Qed.

(** The same holds with a segment, of whatever shape, as long as the
    request is of no bytes: the loop hands out a segment only while bytes
    remain, so that the tests of its body are never made. *)
Example no_bytes_no_shape_test :
  vbswap_make_request 0 empty_read_with_segment boot
  = Done (BLK_STS_OK, bi_io_vec empty_read_with_segment)
         (traced empty_read_with_segment boot).
Proof. reflexivity. Qed.

(** C6 (segment shape), in the form that holds.  A request whose byte
    length exceeds one page, or that contains more than one segment, or
    that has bytes to transfer and a segment shorter than one page or not
    at offset zero, completes with an I/O error; the segments, the
    retained page and the allocator are as before, and no page operation
    has run. *)
Theorem segment_shape_validation (current_flags : Z) (b : bio)
    (k : kernel) :
  bi_size b > PAGE_SIZE \/ bi_vcnt b > 1
  \/ (0 < bi_size b
      /\ exists s, In s (bi_io_vec b)
                   /\ (bv_len s < PAGE_SIZE \/ bv_offset s <> 0)) ->
  exists k',
    vbswap_make_request current_flags b k
    = Done (BLK_STS_IOERR, bi_io_vec b) k'
    /\ only_logged is_page_op k k'.
Proof.
  intros Hshape.
  assert (forall s, reaches_page_op b s -> False) as Hno.
  { intros s (_ & Hsz & Hvec & Hl & Ho).
    destruct Hshape as [Hbig | [Hmany | (_ & s' & Hin & Hbad)]].
    - lia.
    - unfold bi_vcnt in Hmany. rewrite Hvec in Hmany. cbn in Hmany. lia.
    - rewrite Hvec in Hin. destruct Hin as [<- | []]. lia. }
  destruct (make_request_path current_flags b k)
    as [ Hf | Hf Hv | Hf Hv Hbig | Hf Hv Hsz Hvec | s Hf Hv Hsz Hvec
       | s Hf Hv Hsz Hvec Hbad
       | s Hf Hreq Hr Hn | s Hf Hreq Hr Hz Hh | s h Hf Hreq Hr Hz Hh
       | s Hf Hreq _ _ | s h Hf Hreq _ Hz Hh | s p rest Hf Hreq _ Hz Hh Ha
       | s Hf Hreq _ Hz Hh Ha ];
    try (exfalso; exact (Hno _ Hreq)).
  - eexists. split; [reflexivity | printed].
  - eexists. split; [reflexivity | printed].
  - eexists. split; [reflexivity | printed].
  - exfalso. destruct Hshape as [Hbig | [Hmany | (_ & s' & Hin & _)]].
    + lia.
    + unfold bi_vcnt in Hmany. rewrite Hvec in Hmany. cbn in Hmany. lia.
    + rewrite Hvec in Hin. exact Hin.
  - exfalso. destruct Hshape as [Hbig | [Hmany | (Hpos & _)]].
    + rewrite PAGE_SIZE_value in Hbig. lia.
    + unfold bi_vcnt in Hmany. rewrite Hvec in Hmany. cbn in Hmany. lia.
    + lia.
  - rewrite Hvec. eexists. split; [reflexivity | printed].
Qed.

Lemma segment_shape_validation_witness :
  exists k',
    vbswap_make_request 0 two_page_write boot
    = Done (BLK_STS_IOERR, bi_io_vec two_page_write) k'
    /\ only_logged is_page_op boot k'.
Proof.
  apply (segment_shape_validation 0 two_page_write boot).
  left. reflexivity.
Defined.

(** ** Reads *)

(** A read of one full page away from a retained header: zeros, and the
    retained page stays. *)
Lemma read_zero_fill (current_flags : Z) (b : bio) (s : bio_vec)
    (k : kernel) :
  Z.land current_flags PF_KTHREAD = 0 ->
  bi_write b = false ->
  one_page_request b s ->
  page_index b <> 0 \/ swap_header_page k = None ->
  exists k',
    vbswap_make_request current_flags b k
    = Done (BLK_STS_OK, [with_page s zero_page]) k'
    /\ only_logged is_rw_failure k k'.
Proof.
  intros Hf Hr (H0 & _ & Hreq & Hp) Hcase.
  rewrite (dispatch_one_page _ _ _ _ Hf Hreq).
  unfold bio_data_dir, vbswap_bvec_rw. rewrite Hr. cbn [Z.eqb READ].
  destruct (Z.eq_dec (page_index b) 0) as [Hi | Hi].
  - destruct Hcase as [Hn | Hn]; [contradiction |].
    rewrite Hi, bvec_read_empty by exact Hn.
    unfold with_page. cbn [bv_page bv_len bv_offset].
    rewrite (memset_full _ _ Hp). cbn [Z.ltb Z.compare].
    eexists. split; [reflexivity |].
    do 2 (apply only_logged_line; [| reflexivity]). apply only_logged_refl.
  - rewrite bvec_read_outside by exact Hi.
    unfold with_page. cbn [bv_page bv_len bv_offset].
    rewrite (memset_full _ _ Hp). cbn [Z.ltb Z.compare].
    eexists. split; [reflexivity |].
    do 3 (apply only_logged_line; [| reflexivity]). apply only_logged_refl.
Qed.

(** C3 (zero fill).  A read of one full page that passes the checks and is
    addressed at a page index other than 0 (the start sector shifted right
    by 3), in any state of the device, or at page index 0 while no header
    is retained, completes successfully with the destination page all
    zero, and the retained page is what it was. *)
Theorem non_header_reads_are_zero (current_flags : Z) (b : bio)
    (s : bio_vec) (k : kernel) :
  Z.land current_flags PF_KTHREAD = 0 ->
  bi_write b = false ->
  one_page_request b s ->
  page_index b <> 0 \/ swap_header_page k = None ->
  page_index b = Z.shiftr (bi_sector b) 3
  /\ exists k',
       vbswap_make_request current_flags b k
       = Done (BLK_STS_OK, [with_page s zero_page]) k'
       /\ swap_header_page k' = swap_header_page k.
Proof.
  intros Hf Hr Hreq Hcase.
  split.
  - destruct Hreq as (H0 & _ & (Hv & _) & _).
    now apply page_index_in_range.
  - destruct (read_zero_fill _ _ _ _ Hf Hr Hreq Hcase) as (k' & Hrun & Hk).
    exists k'. split; [exact Hrun | apply Hk].
Qed.

Lemma non_header_reads_are_zero_witness :
  page_index (page_request false 40 page_aa) = 5
  /\ exists k',
       vbswap_make_request 0 (page_request false 40 page_aa)
         (mk_kernel (Some page_55) [] [])
       = Done (BLK_STS_OK, [mk_bio_vec zero_page PAGE_SIZE 0]) k'
       /\ swap_header_page k' = Some page_55.
Proof.
  apply (non_header_reads_are_zero 0 (page_request false 40 page_aa)
           (mk_bio_vec page_aa PAGE_SIZE 0) (mk_kernel (Some page_55) [] [])).
  - reflexivity.
  - reflexivity.
  - apply page_request_one_page; [lia | reflexivity | reflexivity].
  - left. vm_compute. discriminate.
Defined.

Lemma no_rw_failure_refl (k : kernel) : no_rw_failure k k.
Proof. exists []. now rewrite app_nil_r. Qed.

Lemma no_rw_failure_trans (k1 k2 k3 : kernel) :
  no_rw_failure k1 k2 -> no_rw_failure k2 k3 -> no_rw_failure k1 k3.
Proof.
  intros (l1 & H1 & F1) (l2 & H2 & F2). exists (l1 ++ l2).
  rewrite H2, H1, app_assoc, existsb_app, F1, F2. now split.
Qed.

Lemma no_rw_failure_line (k : kernel) (l : printk) :
  is_rw_failure l = false -> no_rw_failure k (logged k l).
Proof. intros Hl. exists [l]. cbn. now rewrite Hl. Qed.

Lemma bvec_read_total (bvec : bio_vec) (index : Z) (k : kernel) :
  exists bvec' k',
    vbswap_bvec_read bvec index k = Done (0, bvec') k'
    /\ no_rw_failure k k'.
Proof.
  destruct (Z.eq_dec index 0) as [-> | Hi].
  - destruct (swap_header_page k) as [h |] eqn:Hh.
    + rewrite (bvec_read_holding _ _ h) by exact Hh.
      do 2 eexists. split; [reflexivity |]. exists []. cbn.
      now rewrite app_nil_r.
    + rewrite bvec_read_empty by exact Hh.
      do 2 eexists. split; [reflexivity | apply no_rw_failure_refl].
  - rewrite bvec_read_outside by exact Hi.
    do 2 eexists. split; [reflexivity |]. now apply no_rw_failure_line.
Qed.

(** The loop of the dispatcher over the segments of a read, however many
    and with however many bytes to go: it always completes and its failure
    branch is never taken. *)
Lemma read_loop_never_fails (todo : list bio_vec) :
  forall (index size : Z) (seen : list bio_vec) (k : kernel),
  exists st segs k',
    bio_for_each_segment READ index size seen todo k = Done (st, segs) k'
    /\ no_rw_failure k k'.
Proof.
  induction todo as [| s rest IH]; intros index size seen k.
  - rewrite segments_none. do 3 eexists.
    split; [reflexivity | apply no_rw_failure_refl].
  - destruct (Z_le_gt_dec size 0) as [Hnone | Hpos].
    { rewrite segments_no_bytes by exact Hnone. do 3 eexists.
      split; [reflexivity | apply no_rw_failure_refl]. }
    assert (0 < size) as Hsome by lia.
    destruct (Z.eq_dec (Z.min size (bv_len s)) PAGE_SIZE) as [Hl | Hl].
    + destruct (Z.eq_dec (bv_offset s) 0) as [Ho | Ho].
      * rewrite (segments_step _ _ _ _ _ _ _ Hsome Hl Ho).
        unfold vbswap_bvec_rw. change (READ =? READ) with true. cbv iota.
        destruct (bvec_read_total (mk_bio_vec (bv_page s) PAGE_SIZE 0) index
                    (logged k (pr_debug (segment_trace READ index PAGE_SIZE))))
          as (s' & k1 & Hread & Hq1).
        rewrite Hread. cbn [Z.ltb Z.compare].
        destruct (IH (u32 (index + 1)) (size - PAGE_SIZE)
                    (seen ++ [with_page s (bv_page s')]) k1)
          as (st & segs & k' & Hloop & Hq2).
        exists st, segs, k'. split; [exact Hloop |].
        eapply no_rw_failure_trans; [| exact Hq2].
        eapply no_rw_failure_trans; [| exact Hq1].
        now apply no_rw_failure_line.
      * rewrite segments_misaligned by (lia || (right; exact Ho)).
        do 3 eexists. split; [reflexivity |].
        now apply no_rw_failure_line.
    + rewrite segments_misaligned by (lia || (left; exact Hl)).
      do 3 eexists. split; [reflexivity |].
      now apply no_rw_failure_line.
Qed.

(** Every read request completes, and without a failed page operation. *)
Lemma read_request_completes (current_flags : Z) (b : bio) (k : kernel) :
  bi_write b = false ->
  exists st segs k',
    vbswap_make_request current_flags b k = Done (st, segs) k'
    /\ no_rw_failure k k'.
Proof.
  intros Hr.
  destruct (Z.eq_dec (Z.land current_flags PF_KTHREAD) 0) as [Hf | Hf].
  2: { rewrite (gate_rejects _ _ _ Hf). do 3 eexists.
       split; [reflexivity | apply no_rw_failure_refl]. }
  rewrite (gate_passes _ _ _ Hf).
  destruct (valid_io_request_cases b) as [[Hv _] | [Hv _]].
  { rewrite (dispatch_invalid _ _ _ Hv). do 3 eexists.
    split; [reflexivity | now apply no_rw_failure_line]. }
  rewrite (dispatch_valid _ _ _ Hv). cbv zeta.
  destruct (Z.gtb_spec (bi_size b) PAGE_SIZE) as [Hsz | Hsz].
  { do 3 eexists. split; [reflexivity | now apply no_rw_failure_line]. }
  destruct (Z.gtb_spec (bi_vcnt b) 1) as [Hn | Hn].
  { do 3 eexists. split; [reflexivity | now apply no_rw_failure_line]. }
  unfold bio_data_dir. rewrite Hr.
  destruct (read_loop_never_fails (bi_io_vec b) (page_index b) (bi_size b) []
              (logged k (pr_debug (request_trace READ (page_index b) 0
                                     (bi_size b)))))
    as (st & segs & k' & Hloop & Hq).
  exists st, segs, k'. split; [exact Hloop |].
  eapply no_rw_failure_trans; [| exact Hq]. now apply no_rw_failure_line.
Qed.

(** A valid request with bytes to transfer and of at most a page is one
    page long. *)
Lemma valid_size_one_page (b : bio) :
  vbswap_valid_io_request b = 1 -> 0 < bi_size b <= PAGE_SIZE ->
  bi_size b = PAGE_SIZE.
Proof.
  intros Hv Hsz.
  destruct (valid_io_request_cases b) as [[Hz _] | [_ [_ [_ Hm]]]];
    [congruence |].
  rewrite PAGE_SIZE_value in *.
  pose proof (Z.div_mod (bi_size b) 4096 ltac:(lia)). lia.
Qed.

(** C9 (reads are infallible).  The page read returns 0 for every page
    index and every state.  So every read request completes, whatever the
    context and the parameters, without the dispatcher ever printing that a
    page operation failed, neither as an error nor as the debug line kept
    for the no-space case; and a read that passes the gate and every
    check completes successfully. *)
Theorem reads_never_fail (current_flags : Z) (b : bio) (k : kernel) :
  bi_write b = false ->
  (forall bvec index k0,
     exists bvec' k0', vbswap_bvec_read bvec index k0 = Done (0, bvec') k0')
  /\ exists st segs k',
       vbswap_make_request current_flags b k = Done (st, segs) k'
       /\ no_rw_failure k k'
       /\ (Z.land current_flags PF_KTHREAD = 0 ->
           vbswap_valid_io_request b = 1 ->
           bi_size b <= PAGE_SIZE -> bi_vcnt b <= 1 ->
           Forall full_page_segment (bi_io_vec b) ->
           st = BLK_STS_OK).
Proof.
  intros Hr. split.
  - intros bvec index k0.
    destruct (bvec_read_total bvec index k0) as (bvec' & k0' & Hread & _).
    now exists bvec', k0'.
  - destruct (read_request_completes current_flags b k Hr)
      as (st & segs & k' & Hrun & Hq).
    exists st, segs, k'. split; [exact Hrun |]. split; [exact Hq |].
    intros Hf0 Hv0 Hsz0 Hn0 Hall.
    pose proof (make_request_path current_flags b k) as Hpath.
    rewrite Hrun in Hpath.
    inversion Hpath
      as [ Hf | Hf Hv | Hf Hv Hbig | Hf Hv Hsz Hvec | s Hf Hv Hsz Hvec
         | s Hf Hv Hsz Hvec Hbad
         | s Hf Hreq Hrd Hn | s Hf Hreq Hrd Hz Hh | s h Hf Hreq Hrd Hz Hh
         | s Hf Hreq Hw Hn | s h Hf Hreq Hw Hz Hh
         | s p rest Hf Hreq Hw Hz Hh Ha | ];
      subst; try reflexivity; try congruence.
    + lia.
    + exfalso. rewrite Hvec in Hall.
      inversion Hall as [| ? ? [Hl Ho] _]; subst.
      pose proof (valid_size_one_page b Hv Hsz) as Hone.
      rewrite Hone, Hl in Hbad. rewrite Z.min_id in Hbad. tauto.
Qed.

Lemma reads_never_fail_witness :
  (forall bvec index k0,
     exists bvec' k0', vbswap_bvec_read bvec index k0 = Done (0, bvec') k0')
  /\ exists st segs k',
       vbswap_make_request 0 (page_request false 40 page_aa) boot
       = Done (st, segs) k'
       /\ no_rw_failure boot k'
       /\ (Z.land 0 PF_KTHREAD = 0 ->
           vbswap_valid_io_request (page_request false 40 page_aa) = 1 ->
           bi_size (page_request false 40 page_aa) <= PAGE_SIZE ->
           bi_vcnt (page_request false 40 page_aa) <= 1 ->
           Forall full_page_segment
             (bi_io_vec (page_request false 40 page_aa)) ->
           st = BLK_STS_OK).
Proof.
  apply (reads_never_fail 0 (page_request false 40 page_aa) boot).
  reflexivity.
Defined.

(** ** Writes *)


(** Nor to a request of no bytes that carries a full page: no segment is
    handed out, the page write does not run and nothing is reported. *)
Example no_bytes_no_write :
  page_index empty_write_at_8_with_page = 1
  /\ vbswap_make_request 0 empty_write_at_8_with_page boot
     = Done (BLK_STS_OK, bi_io_vec empty_write_at_8_with_page)
            (traced empty_write_at_8_with_page boot).
Proof. split; reflexivity. Qed.



(** A write of one full page at page index 0 with no header retained and
    an allocator that has no page to give never completes: the NULL result
    of [alloc_page] is mapped and written through. *)
Lemma write_without_memory (current_flags : Z) (b : bio) (s : bio_vec)
    (k : kernel) :
  Z.land current_flags PF_KTHREAD = 0 ->
  bi_write b = true -> one_page_request b s -> page_index b = 0 ->
  swap_header_page k = None ->
  (page_allocator k = [] \/ exists rest, page_allocator k = None :: rest) ->
  vbswap_make_request current_flags b k = Oops.
Proof.
  intros Hf Hw (_ & _ & Hreq & _) Hi Hh Ha.
  rewrite (dispatch_one_page _ _ _ _ Hf Hreq).
  unfold bio_data_dir, vbswap_bvec_rw. rewrite Hw, Hi.
  cbn [Z.eqb WRITE READ].
  rewrite bvec_write_no_memory; [reflexivity | exact Hh | exact Ha].
Qed.

(** C7 (allocation failure), evaluated: with no header retained and
    [alloc_page] returning NULL, the write of a full page at sector 0 from
    an ordinary context does not complete with an I/O error, it faults. *)
Theorem allocation_failure_is_not_detected :
  vbswap_make_request 0 (page_request true 0 page_aa)
    (mk_kernel None [None] [])
  = Oops.
Proof.
  apply (write_without_memory 0 _ (mk_bio_vec page_aa PAGE_SIZE 0)).
  - reflexivity.
  - reflexivity.
  - apply page_request_one_page; [lia | reflexivity | reflexivity].
  - reflexivity.
  - reflexivity.
  - right. exists []. reflexivity.
Qed.

(** ** The retained header *)

(** C1 (one-shot header).  From any state in which a header page is
    retained or the allocator has a page to give, a write of the full page
    [bv_page sw] at page index 0 succeeds; the read of page index 0 that
    follows returns exactly those bytes and leaves no header retained; the
    read of page index 0 after that returns a page of zeros. *)
Theorem one_shot_header (f1 f2 f3 : Z) (w r1 r2 : bio)
    (sw s1 s2 : bio_vec) (k : kernel) :
  Z.land f1 PF_KTHREAD = 0 -> Z.land f2 PF_KTHREAD = 0 ->
  Z.land f3 PF_KTHREAD = 0 ->
  bi_write w = true -> one_page_request w sw -> page_index w = 0 ->
  bi_write r1 = false -> one_page_request r1 s1 -> page_index r1 = 0 ->
  bi_write r2 = false -> one_page_request r2 s2 -> page_index r2 = 0 ->
  (swap_header_page k <> None
   \/ exists p rest, page_allocator k = Some p :: rest) ->
  exists k1 k2 k3,
    vbswap_make_request f1 w k = Done (BLK_STS_OK, [sw]) k1
    /\ vbswap_make_request f2 r1 k1
       = Done (BLK_STS_OK, [with_page s1 (bv_page sw)]) k2
    /\ swap_header_page k2 = None
    /\ vbswap_make_request f3 r2 k2
       = Done (BLK_STS_OK, [with_page s2 zero_page]) k3.
Proof.
  intros Hf1 Hf2 Hf3 Hw Hreqw Hiw Hr1 Hreq1 Hi1 Hr2 Hreq2 Hi2 Hmem.
  pose proof Hreqw as (_ & _ & Hopw & Hpw).
  pose proof Hreq1 as (_ & _ & Hop1 & Hp1).
  (* the write leaves a buffer whose first page is the written one *)
  assert (exists h k1,
             vbswap_make_request f1 w k = Done (BLK_STS_OK, [sw]) k1
             /\ swap_header_page k1
                = Some (memcpy h 0 (bv_page sw) PAGE_SIZE))
    as (h & k1 & Hrun & Hh).
  { rewrite (dispatch_one_page _ _ _ _ Hf1 Hopw).
    unfold bio_data_dir, vbswap_bvec_rw. rewrite Hw, Hiw.
    cbn [Z.eqb WRITE READ].
    destruct (swap_header_page k) as [h |] eqn:Hk.
    - rewrite (bvec_write_holding _ _ h) by exact Hk.
      cbn [Z.ltb Z.compare bv_page]. rewrite with_page_same.
      do 2 eexists. split; reflexivity.
    - destruct Hmem as [Hn | (p & rest & Ha)]; [congruence |].
      rewrite (bvec_write_fresh _ _ p rest) by assumption.
      cbn [Z.ltb Z.compare bv_page]. rewrite with_page_same.
      do 2 eexists. split; reflexivity. }
  (* the first read hands the page over and forgets it *)
  assert (exists k2,
             vbswap_make_request f2 r1 k1
             = Done (BLK_STS_OK, [with_page s1 (bv_page sw)]) k2
             /\ swap_header_page k2 = None) as (k2 & Hrun2 & Hh2).
  { rewrite (dispatch_one_page _ _ _ _ Hf2 Hop1).
    unfold bio_data_dir, vbswap_bvec_rw. rewrite Hr1, Hi1.
    cbn [Z.eqb READ].
    rewrite (bvec_read_holding _ _ (memcpy h 0 (bv_page sw) PAGE_SIZE))
      by exact Hh.
    unfold with_page. cbn [bv_page bv_len bv_offset].
    rewrite (memcpy_roundtrip _ _ _ Hp1 Hpw).
    cbn [Z.ltb Z.compare]. eexists. split; reflexivity. }
  (* the second read finds nothing *)
  destruct (read_zero_fill f3 r2 s2 k2 Hf3 Hr2 Hreq2 (or_intror Hh2))
    as (k3 & Hrun3 & _).
  exists k1, k2, k3. repeat split; assumption.
Qed.

Lemma one_shot_header_witness :
  exists k1 k2 k3,
    vbswap_make_request 0 (page_request true 0 page_aa)
      (mk_kernel None [Some page_55] [])
    = Done (BLK_STS_OK, [mk_bio_vec page_aa PAGE_SIZE 0]) k1
    /\ vbswap_make_request 0 (page_request false 0 page_55) k1
       = Done (BLK_STS_OK, [mk_bio_vec page_aa PAGE_SIZE 0]) k2
    /\ swap_header_page k2 = None
    /\ vbswap_make_request 0 (page_request false 0 page_55) k2
       = Done (BLK_STS_OK, [mk_bio_vec zero_page PAGE_SIZE 0]) k3.
Proof.
  apply (one_shot_header 0 0 0
           (page_request true 0 page_aa) (page_request false 0 page_55)
           (page_request false 0 page_55)
           (mk_bio_vec page_aa PAGE_SIZE 0) (mk_bio_vec page_55 PAGE_SIZE 0)
           (mk_bio_vec page_55 PAGE_SIZE 0)
           (mk_kernel None [Some page_55] [])).
  - reflexivity.
  - reflexivity.
  - reflexivity.
  - reflexivity.
  - apply page_request_one_page; [lia | reflexivity | reflexivity].
  - reflexivity.
  - reflexivity.
  - apply page_request_one_page; [lia | reflexivity | reflexivity].
  - reflexivity.
  - reflexivity.
  - apply page_request_one_page; [lia | reflexivity | reflexivity].
  - reflexivity.
  - right. exists page_55, []. reflexivity.
Defined.

Lemma single_segment_page (b : bio) (s : bio_vec) :
  request_of_pages b -> reaches_page_op b s -> is_page (bv_page s).
Proof.
  unfold request_of_pages. intros Hall (_ & _ & Hvec & _).
  rewrite Hvec in Hall. now inversion Hall.
Qed.

Lemma header_step (current_flags : Z) (b : bio) (k : kernel)
    (st : blk_status_t) (segs : list bio_vec) (k' : kernel) :
  kernel_of_pages k -> request_of_pages b ->
  vbswap_make_request current_flags b k = Done (st, segs) k' ->
  kernel_of_pages k'
  /\ (captured current_flags b k st segs k'
      \/ consumed current_flags b k st segs k'
      \/ untouched k k')
  /\ (leaves_header current_flags b k st -> untouched k k').
Proof.
  intros [Hhdr Hpool] Hpages Hrun.
  pose proof (make_request_path current_flags b k) as Hpath.
  rewrite Hrun in Hpath.
  inversion Hpath
    as [ Hf | Hf Hv | Hf Hv Hbig | Hf Hv Hsz Hvec | s Hf Hv Hsz Hvec
       | s Hf Hv Hsz Hvec Hbad
       | s Hf Hreq Hr Hn | s Hf Hreq Hr Hz Hh | s h Hf Hreq Hr Hz Hh
       | s Hf Hreq Hw Hn | s h Hf Hreq Hw Hz Hh
       | s p rest Hf Hreq Hw Hz Hh Ha | s Hf Hreq Hw Hz Hh Ha ];
    subst; unfold untouched; cbn [swap_header_page traced at_page_op logged].
  - (* rejected *) repeat split; auto.
  - (* invalid *) repeat split; auto.
  - (* too large *) repeat split; auto.
  - (* no segment *) repeat split; auto.
  - (* no bytes *) repeat split; auto.
  - (* misaligned *) repeat split; auto.
  - (* read outside *) repeat split; auto.
  - (* read, nothing retained *) repeat split; auto.
  - (* read of the header *)
    pose proof (single_segment_page _ _ Hpages Hreq) as Hs.
    pose proof (Hhdr h Hh) as Hhp.
    split; [| split].
    + split; [intros p0 H; discriminate H | exact Hpool].
    + right; left. do 4 (split; [assumption || reflexivity |]).
      exists s, h. rewrite (memcpy_full _ _ Hs Hhp).
      split; [exact Hreq |]. split; [exact Hh |]. split; reflexivity.
    + intros [Hk | [Hinv | [Hio | [_ [Hn | Hnone]]]]].
      * contradiction.
      * destruct Hreq as (Hv & _). congruence.
      * discriminate Hio.
      * contradiction.
      * congruence.
  - (* write outside *) repeat split; auto.
  - (* write over a retained page *)
    pose proof (single_segment_page _ _ Hpages Hreq) as Hs.
    pose proof (Hhdr h Hh) as Hhp.
    rewrite (memcpy_full _ _ Hhp Hs).
    split; [| split].
    + split; [intros p0 [= <-]; exact Hs | exact Hpool].
    + left. do 4 (split; [assumption || reflexivity |]).
      exists s. split; [exact Hreq |]. split; reflexivity.
    + intros [Hk | [Hinv | [Hio | [Hr _]]]].
      * contradiction.
      * destruct Hreq as (Hv & _). congruence.
      * discriminate Hio.
      * congruence.
  - (* write into a fresh page *)
    pose proof (single_segment_page _ _ Hpages Hreq) as Hs.
    assert (is_page p) as Hp by (apply Hpool; rewrite Ha; now left).
    rewrite (memcpy_full _ _ Hp Hs).
    split; [| split].
    + split; [intros p0 [= <-]; exact Hs |].
      intros q Hq. apply Hpool. rewrite Ha. now right.
    + left. do 4 (split; [assumption || reflexivity |]).
      exists s. split; [exact Hreq |]. split; reflexivity.
    + intros [Hk | [Hinv | [Hio | [Hr _]]]].
      * contradiction.
      * destruct Hreq as (Hv & _). congruence.
      * discriminate Hio.
      * congruence.
Qed.

Lemma reachable_of_pages (k : kernel) : reachable k -> kernel_of_pages k.
Proof.
  induction 1 as [pool Hpool | k flags b [st segs] k' _ IH Hpages Hrun].
  - split; [intros p H; discriminate H | exact Hpool].
  - exact (proj1 (header_step _ _ _ _ _ _ IH Hpages Hrun)).
Qed.

Lemma retained_page_origin (k : kernel) :
  reachable k ->
  forall p, swap_header_page k = Some p -> written_at_page_0 p.
Proof.
  induction 1 as [pool Hpool | k flags b [st segs] k' Hk IH Hpages Hrun];
    intros p Hp.
  - discriminate Hp.
  - destruct (header_step _ _ _ _ _ _ (reachable_of_pages k Hk) Hpages Hrun)
      as (_ & [Hcap | [Hcon | Hsame]] & _).
    + destruct Hcap as (_ & Hw & Hi & -> & s & Hreq & -> & Hh).
      exists k, flags, b, s, k'.
      destruct Hreq as (_ & _ & Hvec & _).
      repeat split; try assumption. congruence.
    + destruct Hcon as (_ & _ & _ & _ & s & h & _ & _ & _ & Hnone).
      congruence.
    + apply IH. unfold untouched in Hsame. congruence.
Qed.

(** C8 (header state).  In a state reachable from the start of the device,
    a retained page is one page, the one that a successful write at page
    index 0 put there.  A request that completes has done one of three
    things: a successful one-page write at page index 0, after which the
    retained page is the written one; a successful one-page read at page
    index 0 of a retained page, which is handed over and no longer
    retained; or nothing to the retained page.  The last is the case for
    every rejected origin, failed validation, failed request, read at
    another page index and read with nothing retained. *)
Theorem header_state_transitions (k : kernel) (current_flags : Z)
    (b : bio) (st : blk_status_t) (segs : list bio_vec) (k' : kernel) :
  reachable k -> request_of_pages b ->
  vbswap_make_request current_flags b k = Done (st, segs) k' ->
  (forall p, swap_header_page k = Some p ->
             is_page p /\ written_at_page_0 p)
  /\ (captured current_flags b k st segs k'
      \/ consumed current_flags b k st segs k'
      \/ untouched k k')
  /\ (leaves_header current_flags b k st -> untouched k k').
Proof.
  intros Hk Hpages Hrun. split.
  - intros p Hp. split.
    + now apply (proj1 (reachable_of_pages k Hk)).
    + now apply (retained_page_origin k Hk).
  - exact (proj2 (header_step _ _ _ _ _ _
                    (reachable_of_pages k Hk) Hpages Hrun)).
Qed.

Lemma header_state_transitions_witness :
  (forall p, swap_header_page first_boot = Some p ->
             is_page p /\ written_at_page_0 p)
  /\ (captured 0 (page_request true 0 page_aa) first_boot BLK_STS_OK
        [mk_bio_vec page_aa PAGE_SIZE 0] holding_aa
      \/ consumed 0 (page_request true 0 page_aa) first_boot BLK_STS_OK
           [mk_bio_vec page_aa PAGE_SIZE 0] holding_aa
      \/ untouched first_boot holding_aa)
  /\ (leaves_header 0 (page_request true 0 page_aa) first_boot BLK_STS_OK ->
      untouched first_boot holding_aa).
Proof.
  apply (header_state_transitions first_boot 0 (page_request true 0 page_aa)
           BLK_STS_OK [mk_bio_vec page_aa PAGE_SIZE 0] holding_aa).
  - apply reachable_boot. intros p [[= <-] | []]. reflexivity.
  - repeat constructor.
  - vm_compute. reflexivity.
Defined.

(** ** The sysfs attributes, proved *)

Lemma substring_all (s : string) :
  forall n, (String.length s <= n)%nat -> substring 0 n s = s.
Proof.
  induction s as [| c s IH]; intros [| n] Hn; cbn in *; try reflexivity.
  - lia.
  - rewrite IH by lia. reflexivity.
Qed.

Lemma scnprintf_fits (size : Z) (text : string) :
  Z.of_nat (String.length text) < size ->
  scnprintf size text = (text, Z.of_nat (String.length text)).
Proof.
  intros Hfit. unfold scnprintf. rewrite substring_all by lia. reflexivity.
Qed.

Lemma length_append (s t : string) :
  String.length (s ++ t) = (String.length s + String.length t)%nat.
Proof. induction s as [| c s IH]; cbn; [reflexivity | now rewrite IH]. Qed.

(** Doubling a little-endian decimal adds at most one digit. *)
Lemma nb_digits_double (d : Decimal.uint) :
  (Decimal.nb_digits (Decimal.Little.double d) <= S (Decimal.nb_digits d))%nat
  /\ (Decimal.nb_digits (Decimal.Little.succ_double d)
      <= S (Decimal.nb_digits d))%nat.
Proof.
  induction d as [| d [IH1 IH2] | d [IH1 IH2] | d [IH1 IH2] | d [IH1 IH2]
                  | d [IH1 IH2] | d [IH1 IH2] | d [IH1 IH2] | d [IH1 IH2]
                  | d [IH1 IH2] | d [IH1 IH2]];
    cbn; split; lia.
Qed.

Lemma nb_digits_to_little_uint (p : positive) :
  (Decimal.nb_digits (Pos.to_little_uint p) <= Pos.size_nat p)%nat.
Proof.
  induction p as [p IH | p IH |]; cbn.
  - pose proof (proj2 (nb_digits_double (Pos.to_little_uint p))). lia.
  - pose proof (proj1 (nb_digits_double (Pos.to_little_uint p))). lia.
  - lia.
Qed.

Lemma size_nat_bound (p : positive) :
  forall n, Z.pos p < 2 ^ Z.of_nat n -> (Pos.size_nat p <= n)%nat.
Proof.
  induction p as [p IH | p IH |]; intros [| n] Hp; cbn [Pos.size_nat].
  - change (2 ^ Z.of_nat 0) with 1 in Hp. lia.
  - apply le_n_S, IH. rewrite Nat2Z.inj_succ, Z.pow_succ_r in Hp; lia.
  - change (2 ^ Z.of_nat 0) with 1 in Hp. lia.
  - apply le_n_S, IH. rewrite Nat2Z.inj_succ, Z.pow_succ_r in Hp; lia.
  - change (2 ^ Z.of_nat 0) with 1 in Hp. lia.
  - lia.
Qed.

Lemma length_string_of_uint (d : Decimal.uint) :
  String.length (NilEmpty.string_of_uint d) = Decimal.nb_digits d.
Proof. induction d; cbn; congruence. Qed.

(** An [int] that is not negative prints in at most 31 digits. *)
Lemma fmt_d_length (x : Z) :
  0 <= x < 2 ^ 31 -> (String.length (fmt_d x) <= 31)%nat.
Proof.
  intros Hx. unfold fmt_d, s32. rewrite Z.mod_small by lia.
  replace (x + 2 ^ 31 - 2 ^ 31) with x by lia.
  destruct x as [| p | p]; [cbn; lia | | lia].
  cbn [Z.to_int NilZero.string_of_int].
  unfold NilZero.string_of_uint.
  pose proof (DecimalPos.Unsigned.to_uint_nonnil p) as Hnn.
  destruct (Pos.to_uint p) eqn:Hd; try contradiction;
    rewrite <- Hd, length_string_of_uint;
    unfold Pos.to_uint; rewrite DecimalFacts.nb_digits_rev;
    (etransitivity; [apply nb_digits_to_little_uint |]);
    apply (size_nat_bound p 31); cbn; lia.
Qed.

Lemma fmt_d_reads_back (x : Z) :
  0 <= x < 2 ^ 31 ->
  option_map Z.of_int (NilZero.int_of_string (fmt_d x)) = Some x.
Proof.
  intros Hx. unfold fmt_d, s32. rewrite Z.mod_small by lia.
  replace (x + 2 ^ 31 - 2 ^ 31) with x by lia.
  rewrite NilZero.isi.
  - cbn. now rewrite DecimalZ.of_to.
  - destruct x; cbn; try discriminate.
    intros [= H]. now apply (DecimalPos.Unsigned.to_uint_nonnil p).
  - destruct x; cbn; try discriminate. lia.
Qed.

(** C10 (attributes).  The capacity attribute always reads as the
    configured capacity, 6442450944, that is 6 times 1024 cubed, and a
    line feed; the stream-count attribute reads as the number of online
    processors in decimal and a line feed.  Writing to either attribute
    reports the whole input as consumed and leaves the state of the
    device, hence every later answer, as it was. *)
Theorem attributes_are_query_only (k : kernel) (cpus : Z) (buf : string)
    (len : Z) :
  0 <= cpus < 2 ^ 31 -> 0 <= len < 2 ^ 63 ->
  disksize_show k = Done (("6442450944" ++ newline)%string, 11) k
  /\ fmt_llu (6 * 1024 ^ 3) = "6442450944"%string
  /\ (exists digits,
        max_comp_streams_show cpus k
        = Done ((digits ++ newline)%string,
                Z.of_nat (String.length digits) + 1) k
        /\ option_map Z.of_int (NilZero.int_of_string digits) = Some cpus)
  /\ disksize_store buf len k = Done len k
  /\ max_comp_streams_store buf len k = Done len k.
Proof.
  intros Hc Hl.
  assert (ssize_t len = len) as Hlen.
  { unfold ssize_t. rewrite Z.mod_small by lia. lia. }
  split; [reflexivity |]. split; [reflexivity |]. split.
  - exists (fmt_d cpus). split; [| now apply fmt_d_reads_back].
    unfold max_comp_streams_show, ret.
    pose proof (fmt_d_length cpus Hc) as Hd.
    rewrite scnprintf_fits.
    + rewrite length_append. cbn [String.length newline].
      do 2 f_equal. lia.
    + rewrite length_append. cbn [String.length newline].
      rewrite PAGE_SIZE_value. lia.
  - unfold disksize_store, max_comp_streams_store, ret. rewrite Hlen.
    split; reflexivity.
Qed.

Lemma attributes_are_query_only_witness :
  disksize_show first_boot
  = Done (("6442450944" ++ newline)%string, 11) first_boot
  /\ fmt_llu (6 * 1024 ^ 3) = "6442450944"%string
  /\ (exists digits,
        max_comp_streams_show 8 first_boot
        = Done ((digits ++ newline)%string,
                Z.of_nat (String.length digits) + 1) first_boot
        /\ option_map Z.of_int (NilZero.int_of_string digits) = Some 8)
  /\ disksize_store "1024" 5 first_boot = Done 5 first_boot
  /\ max_comp_streams_store "1024" 5 first_boot = Done 5 first_boot.
Proof.
  apply (attributes_are_query_only first_boot 8 "1024" 5); lia.
Defined.

(** ** Further properties of the request path *)

(** The path a completed request took, read off its result. *)
Lemma completed_request_path (current_flags : Z) (b : bio) (k : kernel)
    (r : blk_status_t * list bio_vec) (k' : kernel) :
  vbswap_make_request current_flags b k = Done r k' ->
  request_path current_flags b k (Done r k').
Proof.
  intros Hrun. rewrite <- Hrun. apply make_request_path.
Qed.

Ltac paths Hrun :=
  let P := fresh "P" in
  pose proof (completed_request_path _ _ _ _ _ Hrun) as P;
  inversion P
    as [ Hf | Hf Hv | Hf Hv Hbig | Hf Hv Hsz Hvec | s Hf Hv Hsz Hvec
       | s Hf Hv Hsz Hvec Hbad
       | s Hf Hreq Hr Hn | s Hf Hreq Hr Hz Hh | s h Hf Hreq Hr Hz Hh
       | s Hf Hreq Hw Hn | s h Hf Hreq Hw Hz Hh
       | s p rest Hf Hreq Hw Hz Hh Ha | ];
  subst; clear P.

Lemma reaches_single (b : bio) (s : bio_vec) :
  reaches_page_op b s -> bi_io_vec b = [s].
Proof. now intros (_ & _ & Hvec & _). Qed.

(** X1 (no partial effect).  A request that ends in an I/O error has
    changed nothing: the pages of its segments, the retained header and
    the allocator are as it found them.  A write, failed or not, never
    changes the pages it was given. *)
Theorem failed_requests_change_nothing (current_flags : Z) (b : bio)
    (k : kernel) (st : blk_status_t) (segs : list bio_vec) (k' : kernel) :
  vbswap_make_request current_flags b k = Done (st, segs) k' ->
  (st = BLK_STS_IOERR ->
   segs = bi_io_vec b
   /\ swap_header_page k' = swap_header_page k
   /\ page_allocator k' = page_allocator k)
  /\ (bi_write b = true -> segs = bi_io_vec b).
Proof.
  intros Hrun. paths Hrun;
    try (pose proof (reaches_single _ _ Hreq) as Hvec);
    (split; [intros Hst; try discriminate Hst | intros Hwr; try congruence]);
    repeat split; congruence.
Qed.

Lemma failed_requests_change_nothing_witness :
  (BLK_STS_IOERR = BLK_STS_IOERR ->
   [mk_bio_vec page_aa PAGE_SIZE 0] = bi_io_vec (page_request true 8 page_aa)
   /\ swap_header_page
        (logged (logged (at_page_op (page_request true 8 page_aa) first_boot)
                   (pr_err write_outside_header))
           (pr_err (bvec_rw_failed (- EIO))))
      = swap_header_page first_boot
   /\ page_allocator
        (logged (logged (at_page_op (page_request true 8 page_aa) first_boot)
                   (pr_err write_outside_header))
           (pr_err (bvec_rw_failed (- EIO))))
      = page_allocator first_boot)
  /\ (bi_write (page_request true 8 page_aa) = true ->
      [mk_bio_vec page_aa PAGE_SIZE 0]
      = bi_io_vec (page_request true 8 page_aa)).
Proof.
  apply (failed_requests_change_nothing 0 (page_request true 8 page_aa)
           first_boot).
  vm_compute. reflexivity.
Defined.

(** X2 (no stale memory).  In a reachable state, every page that a
    successful read of some bytes hands back is either all zero or the
    retained header: nothing of what the destination page held before, and
    nothing of what the allocator left in a fresh page, comes back to the
    reader.  A successful read of no bytes hands the pages back as they
    were given. *)
Theorem reads_expose_no_memory (k : kernel) (current_flags : Z) (b : bio)
    (segs : list bio_vec) (k' : kernel) :
  reachable k -> request_of_pages b -> bi_write b = false ->
  vbswap_make_request current_flags b k = Done (BLK_STS_OK, segs) k' ->
  List.length segs = List.length (bi_io_vec b)
  /\ (0 < bi_size b ->
      Forall (fun s => bv_page s = zero_page
                       \/ (page_index b = 0
                           /\ swap_header_page k = Some (bv_page s)))
             segs)
  /\ (bi_size b <= 0 -> segs = bi_io_vec b).
Proof.
  intros Hk Hpages Hrd Hrun.
  destruct (reachable_of_pages k Hk) as [Hhdr _].
  paths Hrun; try congruence;
    try (pose proof (reaches_single _ _ Hreq) as Hvec;
         pose proof (single_segment_page _ _ Hpages Hreq) as Hs;
         pose proof (proj1 (reaches_full_page _ _ Hreq)) as Hpos);
    rewrite ?Hvec; (split; [reflexivity |]);
    (split; [intros Hsome | intros Hnone; try reflexivity; try lia]).
  - constructor.
  - lia.
  - constructor; [| constructor]. left. cbn. now apply memset_full.
  - constructor; [| constructor]. left. cbn. now apply memset_full.
  - constructor; [| constructor]. right. unfold with_page. cbn [bv_page].
    rewrite (memcpy_full _ _ Hs (Hhdr h Hh)). now split.
Qed.

Lemma reads_expose_no_memory_witness :
  List.length [mk_bio_vec page_aa PAGE_SIZE 0]
  = List.length (bi_io_vec (page_request false 0 page_55))
  /\ (0 < bi_size (page_request false 0 page_55) ->
      Forall (fun s => bv_page s = zero_page
                       \/ (page_index (page_request false 0 page_55) = 0
                           /\ swap_header_page holding_aa
                              = Some (bv_page s)))
             [mk_bio_vec page_aa PAGE_SIZE 0])
  /\ (bi_size (page_request false 0 page_55) <= 0 ->
      [mk_bio_vec page_aa PAGE_SIZE 0]
      = bi_io_vec (page_request false 0 page_55)).
Proof.
  apply (reads_expose_no_memory holding_aa 0
           (page_request false 0 page_55) [mk_bio_vec page_aa PAGE_SIZE 0]
           (mk_kernel None []
              (dmesg holding_aa
               ++ [pr_debug (request_trace READ 0 0 PAGE_SIZE);
                   pr_debug (segment_trace READ 0 PAGE_SIZE)]))).
  - apply (reachable_request first_boot 0 (page_request true 0 page_aa)
             (BLK_STS_OK, [mk_bio_vec page_aa PAGE_SIZE 0])).
    + apply reachable_boot. intros p [[= <-] | []]. reflexivity.
    + repeat constructor.
    + vm_compute. reflexivity.
  - repeat constructor.
  - reflexivity.
  - vm_compute. reflexivity.
Defined.

(** X3 (allocation).  A request takes a page from the allocator only as
    a successful write at page index 0 that finds no header retained, and
    then takes exactly one; reads, failed requests and writes over a
    retained header leave the allocator alone. *)
Theorem allocation_discipline (current_flags : Z) (b : bio) (k : kernel)
    (st : blk_status_t) (segs : list bio_vec) (k' : kernel) :
  vbswap_make_request current_flags b k = Done (st, segs) k' ->
  page_allocator k' = page_allocator k
  \/ (exists p,
        page_allocator k = Some p :: page_allocator k'
        /\ swap_header_page k = None
        /\ swap_header_page k' <> None
        /\ bi_write b = true /\ page_index b = 0 /\ st = BLK_STS_OK).
Proof.
  intros Hrun. paths Hrun; try (left; reflexivity).
  right. exists p. cbn. repeat split; try assumption. discriminate.
Qed.

Lemma allocation_discipline_witness :
  page_allocator holding_aa = page_allocator first_boot
  \/ (exists p,
        page_allocator first_boot = Some p :: page_allocator holding_aa
        /\ swap_header_page first_boot = None
        /\ swap_header_page holding_aa <> None
        /\ bi_write (page_request true 0 page_aa) = true
        /\ page_index (page_request true 0 page_aa) = 0
        /\ BLK_STS_OK = BLK_STS_OK).
Proof.
  apply (allocation_discipline 0 (page_request true 0 page_aa) first_boot
           BLK_STS_OK [mk_bio_vec page_aa PAGE_SIZE 0] holding_aa).
  vm_compute. reflexivity.
Defined.

(** X4 (transfers stay inside the device).  The validator looks at the
    start sector only, yet a request that passes it and is at most one
    page long ends at or before the capacity; its page index is the byte
    offset divided by the page size, below the number of pages of the
    device, so the narrowing to 32 bits loses nothing. *)
Theorem valid_transfers_stay_inside (b : bio) :
  0 <= bi_sector b -> vbswap_valid_io_request b = 1 ->
  bi_size b <= PAGE_SIZE ->
  bi_sector b * SECTOR_SIZE + bi_size b <= vbswap_disksize
  /\ page_index b * PAGE_SIZE = bi_sector b * SECTOR_SIZE
  /\ 0 <= page_index b < vbswap_disksize / PAGE_SIZE.
Proof.
  intros H0 Hv Hsz.
  destruct (page_index_in_range b H0 Hv) as [Hidx _].
  destruct (valid_io_request_cases b) as [[Hz _] | [_ [Hs [Ha _]]]];
    [congruence |].
  rewrite Hidx, Z.shiftr_div_pow2 by lia.
  change (2 ^ 3) with 8. change SECTOR_SIZE with 512.
  change (vbswap_disksize / PAGE_SIZE) with 1572864.
  change vbswap_disksize with 6442450944.
  rewrite PAGE_SIZE_value in *.
  pose proof (Z.div_mod (bi_sector b) 8 ltac:(lia)) as Hdm.
  rewrite Ha in Hdm. lia.
Qed.

Lemma valid_transfers_stay_inside_witness :
  bi_sector (page_request false 12582904 page_55) * SECTOR_SIZE
  + bi_size (page_request false 12582904 page_55) <= vbswap_disksize
  /\ page_index (page_request false 12582904 page_55) * PAGE_SIZE
     = bi_sector (page_request false 12582904 page_55) * SECTOR_SIZE
  /\ 0 <= page_index (page_request false 12582904 page_55)
     < vbswap_disksize / PAGE_SIZE.
Proof.
  apply (valid_transfers_stay_inside (page_request false 12582904 page_55)).
  - cbn. lia.
  - reflexivity.
  - cbn. reflexivity.
Defined.

(** ** Requests in sequence *)

Lemma missing_request_step (current_flags : Z) (b : bio) (k : kernel) :
  misses_header (current_flags, b) ->
  exists r k',
    vbswap_make_request current_flags b k = Done r k'
    /\ swap_header_page k' = swap_header_page k
    /\ page_allocator k' = page_allocator k.
Proof.
  unfold misses_header. cbn [fst snd]. intros Hmiss.
  destruct (make_request_path current_flags b k)
    as [ Hf | Hf Hv | Hf Hv Hbig | Hf Hv Hsz Hvec | s Hf Hv Hsz Hvec
       | s Hf Hv Hsz Hvec Hbad
       | s Hf Hreq Hr Hn | s Hf Hreq Hr Hz Hh | s h Hf Hreq Hr Hz Hh
       | s Hf Hreq Hw Hn | s h Hf Hreq Hw Hz Hh
       | s p rest Hf Hreq Hw Hz Hh Ha | s Hf Hreq Hw Hz Hh Ha ];
    try (do 2 eexists; repeat split; fail);
    exfalso; destruct Hmiss as [Hm | [Hm | Hm]];
    solve [contradiction | exact (Hm s Hreq)].
Qed.

Lemma missing_requests (requests : list (Z * bio)) :
  Forall misses_header requests ->
  forall k,
  exists rs k',
    submit_all requests k = Done rs k'
    /\ List.length rs = List.length requests
    /\ swap_header_page k' = swap_header_page k
    /\ page_allocator k' = page_allocator k.
Proof.
  induction 1 as [| [f b] rest Hmiss _ IH]; intros k.
  - exists [], k. repeat split.
  - destruct (missing_request_step f b k Hmiss) as (r & k1 & Hrun & Hh1 & Ha1).
    destruct (IH k1) as (rs & k2 & Hrest & Hlen & Hh2 & Ha2).
    exists (r :: rs), k2. cbn [submit_all]. unfold bind at 1.
    rewrite Hrun. unfold bind at 1. rewrite Hrest. unfold ret.
    repeat split; cbn [List.length]; congruence.
Qed.

Lemma write_captures (current_flags : Z) (w : bio) (s : bio_vec)
    (k : kernel) :
  Z.land current_flags PF_KTHREAD = 0 ->
  bi_write w = true -> reaches_page_op w s -> page_index w = 0 ->
  (swap_header_page k <> None
   \/ exists p rest, page_allocator k = Some p :: rest) ->
  exists h k1,
    vbswap_make_request current_flags w k = Done (BLK_STS_OK, [s]) k1
    /\ swap_header_page k1 = Some (memcpy h 0 (bv_page s) PAGE_SIZE).
Proof.
  intros Hf Hw Hreq Hi Hmem.
  rewrite (dispatch_one_page _ _ _ _ Hf Hreq).
  unfold bio_data_dir, vbswap_bvec_rw. rewrite Hw, Hi.
  cbn [Z.eqb WRITE READ].
  destruct (swap_header_page k) as [h |] eqn:Hk.
  - rewrite (bvec_write_holding _ _ h) by exact Hk.
    cbn [Z.ltb Z.compare bv_page]. rewrite with_page_same.
    do 2 eexists. split; reflexivity.
  - destruct Hmem as [Hn | (p & rest & Ha)]; [congruence |].
    rewrite (bvec_write_fresh _ _ p rest) by assumption.
    cbn [Z.ltb Z.compare bv_page]. rewrite with_page_same.
    do 2 eexists. split; reflexivity.
Qed.

Lemma read_delivers (current_flags : Z) (r : bio) (s : bio_vec)
    (k : kernel) (h written : page) :
  Z.land current_flags PF_KTHREAD = 0 ->
  bi_write r = false -> one_page_request r s -> page_index r = 0 ->
  swap_header_page k = Some (memcpy h 0 written PAGE_SIZE) ->
  is_page written ->
  exists k',
    vbswap_make_request current_flags r k
    = Done (BLK_STS_OK, [with_page s written]) k'
    /\ swap_header_page k' = None.
Proof.
  intros Hf Hr (_ & _ & Hreq & Hp) Hi Hh Hw.
  rewrite (dispatch_one_page _ _ _ _ Hf Hreq).
  unfold bio_data_dir, vbswap_bvec_rw. rewrite Hr, Hi.
  cbn [Z.eqb READ].
  rewrite (bvec_read_holding _ _ (memcpy h 0 written PAGE_SIZE)) by exact Hh.
  unfold with_page. cbn [bv_page bv_len bv_offset].
  rewrite (memcpy_roundtrip _ _ _ Hp Hw).
  cbn [Z.ltb Z.compare]. eexists. split; reflexivity.
Qed.

(** X5 (the header waits for its reader).  After a successful write of a
    page at page index 0, any number of requests that miss the header,
    from refused origins, addressed at other pages, failing a check or
    with no byte to transfer, all complete without touching the retained
    page or the allocator, and
    the next one-page read of page index 0 still returns the written page
    and empties the header. *)
Theorem header_waits_for_its_reader (f1 f2 : Z) (w r : bio)
    (sw sr : bio_vec) (requests : list (Z * bio)) (k : kernel) :
  Z.land f1 PF_KTHREAD = 0 -> Z.land f2 PF_KTHREAD = 0 ->
  bi_write w = true -> one_page_request w sw -> page_index w = 0 ->
  bi_write r = false -> one_page_request r sr -> page_index r = 0 ->
  Forall misses_header requests ->
  (swap_header_page k <> None
   \/ exists p rest, page_allocator k = Some p :: rest) ->
  exists k1 rs k2 k3,
    vbswap_make_request f1 w k = Done (BLK_STS_OK, [sw]) k1
    /\ submit_all requests k1 = Done rs k2
    /\ List.length rs = List.length requests
    /\ swap_header_page k2 = swap_header_page k1
    /\ page_allocator k2 = page_allocator k1
    /\ vbswap_make_request f2 r k2
       = Done (BLK_STS_OK, [with_page sr (bv_page sw)]) k3
    /\ swap_header_page k3 = None.
Proof.
  intros Hf1 Hf2 Hw Hreqw Hiw Hr Hreqr Hir Hmiss Hmem.
  pose proof Hreqw as (_ & _ & Hopw & Hpw).
  destruct (write_captures f1 w sw k Hf1 Hw Hopw Hiw Hmem)
    as (h & k1 & Hrun1 & Hh1).
  destruct (missing_requests requests Hmiss k1)
    as (rs & k2 & Hrun2 & Hlen & Hh2 & Ha2).
  destruct (read_delivers f2 r sr k2 h (bv_page sw) Hf2 Hr Hreqr Hir)
    as (k3 & Hrun3 & Hh3); [congruence | exact Hpw |].
  exists k1, rs, k2, k3. repeat split; assumption.
Qed.

Lemma header_waits_for_its_reader_witness :
  exists k1 rs k2 k3,
    vbswap_make_request 0 (page_request true 0 page_aa) first_boot
    = Done (BLK_STS_OK, [mk_bio_vec page_aa PAGE_SIZE 0]) k1
    /\ submit_all other_requests k1 = Done rs k2
    /\ List.length rs = List.length other_requests
    /\ swap_header_page k2 = swap_header_page k1
    /\ page_allocator k2 = page_allocator k1
    /\ vbswap_make_request 0 (page_request false 0 page_55) k2
       = Done (BLK_STS_OK, [mk_bio_vec page_aa PAGE_SIZE 0]) k3
    /\ swap_header_page k3 = None.
Proof.
  apply (header_waits_for_its_reader 0 0
           (page_request true 0 page_aa) (page_request false 0 page_55)
           (mk_bio_vec page_aa PAGE_SIZE 0) (mk_bio_vec page_55 PAGE_SIZE 0)
           other_requests first_boot).
  - reflexivity.
  - reflexivity.
  - reflexivity.
  - apply page_request_one_page; [lia | reflexivity | reflexivity].
  - reflexivity.
  - reflexivity.
  - apply page_request_one_page; [lia | reflexivity | reflexivity].
  - reflexivity.
  - apply Forall_cons; [left; vm_compute; discriminate |].
    apply Forall_cons; [right; left; vm_compute; discriminate |].
    apply Forall_cons; [right; left; vm_compute; discriminate |].
    apply Forall_nil.
  - right. exists page_55, []. reflexivity.
Defined.

(** ** What the driver prints *)

(** A request that reaches its page operation has passed every earlier
    exit of the dispatcher. *)
Lemma reaches_excludes (b : bio) (s : bio_vec) :
  reaches_page_op b s ->
  vbswap_valid_io_request b <> 0
  /\ ~ (bi_size b > PAGE_SIZE \/ bi_vcnt b > 1)
  /\ bi_io_vec b <> []
  /\ (forall s0, bi_io_vec b = [s0] ->
                 ~ (Z.min (bi_size b) (bv_len s0) <> PAGE_SIZE
                    \/ bv_offset s0 <> 0))
  /\ 0 < bi_size b.
Proof.
  intros Hreq. destruct (reaches_full_page b s Hreq) as [Hpos Hmin].
  destruct Hreq as (Hv & Hsz & Hvec & Hl & Ho). repeat split.
  - congruence.
  - unfold bi_vcnt. rewrite Hvec. cbn [List.length]. lia.
  - congruence.
  - intros s0 H0. assert (s0 = s) as -> by congruence. tauto.
  - lia.
Qed.

Ltac lines_of ls :=
  exists ls; split;
  [ unfold at_page_op, traced, logged; cbn [dmesg];
    rewrite <- ?app_assoc; cbn [app]; try rewrite app_nil_r; reflexivity
  | ].

(** X6 (two dead branches).  A request prints at most four lines.  None
    of them is the complaint about a nonzero offset inside the page, which
    the validation has already excluded, and none is the debug form of the
    failed page operation kept for [-ENOSPC]: the only status a page
    operation ever fails with is [-EIO], printed as an error, and only a
    write at a page index other than 0 does. *)
Theorem dead_branches (current_flags : Z) (b : bio) (k : kernel)
    (r : blk_status_t * list bio_vec) (k' : kernel) :
  vbswap_make_request current_flags b k = Done r k' ->
  exists lines,
    dmesg k' = dmesg k ++ lines
    /\ (List.length lines <= 4)%nat
    /\ forall l, In l lines ->
         (forall sector index offset,
            l <> pr_err (invalid_offset sector index offset))
         /\ (forall e, l <> pr_debug (bvec_rw_failed e))
         /\ (forall e, l = pr_err (bvec_rw_failed e) ->
                       e = - EIO /\ bi_write b = true /\ page_index b <> 0
                       /\ fst r = BLK_STS_IOERR).
Proof.
  intros Hrun. paths Hrun.
  - lines_of (@nil printk). split; [cbn; lia |]. intros l [].
  - lines_of [pr_err (invalid_io_request (bi_sector b) (bi_size b)
                        vbswap_disksize)].
    split; [cbn; lia |].
    intros l [<- | []]; repeat split; intros; discriminate.
  - lines_of [pr_debug (request_trace (bio_data_dir b) (page_index b) 0
                          (bi_size b))].
    split; [cbn; lia |].
    intros l [<- | []]; repeat split; intros; discriminate.
  - lines_of [pr_debug (request_trace (bio_data_dir b) (page_index b) 0
                          (bi_size b))].
    split; [cbn; lia |].
    intros l [<- | []]; repeat split; intros; discriminate.
  - lines_of [pr_debug (request_trace (bio_data_dir b) (page_index b) 0
                          (bi_size b))].
    split; [cbn; lia |].
    intros l [<- | []]; repeat split; intros; discriminate.
  - lines_of [pr_debug (request_trace (bio_data_dir b) (page_index b) 0
                          (bi_size b));
              pr_err (bvec_misaligned (Z.min (bi_size b) (bv_len s))
                        (bv_offset s))].
    split; [cbn; lia |].
    intros l [<- | [<- | []]]; repeat split; intros; discriminate.
  - lines_of [pr_debug (request_trace (bio_data_dir b) (page_index b) 0
                          (bi_size b));
              pr_debug (segment_trace (bio_data_dir b) (page_index b)
                          PAGE_SIZE);
              pr_err read_outside_header].
    split; [cbn; lia |].
    intros l [<- | [<- | [<- | []]]]; repeat split; intros; discriminate.
  - lines_of [pr_debug (request_trace (bio_data_dir b) (page_index b) 0
                          (bi_size b));
              pr_debug (segment_trace (bio_data_dir b) (page_index b)
                          PAGE_SIZE)].
    split; [cbn; lia |].
    intros l [<- | [<- | []]]; repeat split; intros; discriminate.
  - lines_of [pr_debug (request_trace (bio_data_dir b) (page_index b) 0
                          (bi_size b));
              pr_debug (segment_trace (bio_data_dir b) (page_index b)
                          PAGE_SIZE)].
    split; [cbn; lia |].
    intros l [<- | [<- | []]]; repeat split; intros; discriminate.
  - lines_of [pr_debug (request_trace (bio_data_dir b) (page_index b) 0
                          (bi_size b));
              pr_debug (segment_trace (bio_data_dir b) (page_index b)
                          PAGE_SIZE);
              pr_err write_outside_header;
              pr_err (bvec_rw_failed (- EIO))].
    split; [cbn; lia |].
    intros l [<- | [<- | [<- | [<- | []]]]]; repeat split;
      intros; try discriminate; try assumption.
    congruence.
  - lines_of [pr_debug (request_trace (bio_data_dir b) (page_index b) 0
                          (bi_size b));
              pr_debug (segment_trace (bio_data_dir b) (page_index b)
                          PAGE_SIZE)].
    split; [cbn; lia |].
    intros l [<- | [<- | []]]; repeat split; intros; discriminate.
  - lines_of [pr_debug (request_trace (bio_data_dir b) (page_index b) 0
                          (bi_size b));
              pr_debug (segment_trace (bio_data_dir b) (page_index b)
                          PAGE_SIZE)].
    split; [cbn; lia |].
    intros l [<- | [<- | []]]; repeat split; intros; discriminate.
Qed.

Lemma dead_branches_witness :
  exists lines,
    dmesg (logged (logged (at_page_op (page_request true 8 page_aa)
                             first_boot)
                     (pr_err write_outside_header))
             (pr_err (bvec_rw_failed (- EIO))))
    = dmesg first_boot ++ lines
    /\ (List.length lines <= 4)%nat
    /\ forall l, In l lines ->
         (forall sector index offset,
            l <> pr_err (invalid_offset sector index offset))
         /\ (forall e, l <> pr_debug (bvec_rw_failed e))
         /\ (forall e, l = pr_err (bvec_rw_failed e) ->
                       e = - EIO
                       /\ bi_write (page_request true 8 page_aa) = true
                       /\ page_index (page_request true 8 page_aa) <> 0
                       /\ fst (BLK_STS_IOERR, [mk_bio_vec page_aa PAGE_SIZE 0])
                          = BLK_STS_IOERR).
Proof.
  apply (dead_branches 0 (page_request true 8 page_aa) first_boot
           (BLK_STS_IOERR, [mk_bio_vec page_aa PAGE_SIZE 0])).
  vm_compute. reflexivity.
Defined.

Ltac absurd_path H :=
  exfalso;
  let E1 := fresh in let E2 := fresh in let E3 := fresh in
  let E4 := fresh in let E5 := fresh in
  destruct (reaches_excludes _ _ H) as (E1 & E2 & E3 & E4 & E5);
  solve [ congruence | tauto | lia
        | match goal with
          | Hv : bi_io_vec _ = [_], Hb : _ \/ _ |- _ => exact (E4 _ Hv Hb)
          end ].

(** Decide whether a given line is among the lines printed on a path. *)
Ltac line_iff :=
  split;
  [ let Hin := fresh "Hin" in
    intros Hin; cbn [In] in Hin;
    repeat (destruct Hin as [Hin | Hin]; [try discriminate Hin |]);
    try contradiction; repeat split; eauto
  | let Hreq' := fresh "Hreq'" in
    intros (? & ? & ? & ? & Hreq');
    first [ absurd_path Hreq' | cbn [In]; tauto ] ].

Ltac line_then :=
  let Hin := fresh "Hin" in
  intros Hin; cbn [In] in Hin;
  repeat (destruct Hin as [Hin | Hin]; [try discriminate Hin |]);
  try contradiction; reflexivity.

(** X7 (the two complaints).  Among the lines a request prints, "tried to
    read outside of swap header" is there exactly when the request is a
    read that reached its page operation at a page index other than 0, and
    that read has then succeeded; "tried to write outside of swap header"
    is there exactly when it is such a write, and that write has failed.
    Both are printed as errors.  A request reaches its page operation
    when it is valid, one page long and its one segment starts at offset
    zero with a page of bytes to hand out; a request of no bytes prints
    neither line. *)
Theorem outside_header_complaints (current_flags : Z) (b : bio)
    (k : kernel) (st : blk_status_t) (segs : list bio_vec) (k' : kernel) :
  vbswap_make_request current_flags b k = Done (st, segs) k' ->
  exists lines,
    dmesg k' = dmesg k ++ lines
    /\ (In (pr_err read_outside_header) lines <->
        Z.land current_flags PF_KTHREAD = 0 /\ bi_write b = false
        /\ page_index b <> 0 /\ exists s, reaches_page_op b s)
    /\ (In (pr_err read_outside_header) lines -> st = BLK_STS_OK)
    /\ (In (pr_err write_outside_header) lines <->
        Z.land current_flags PF_KTHREAD = 0 /\ bi_write b = true
        /\ page_index b <> 0 /\ exists s, reaches_page_op b s)
    /\ (In (pr_err write_outside_header) lines -> st = BLK_STS_IOERR).
Proof.
  intros Hrun. paths Hrun.
  - lines_of (@nil printk).
    split; [line_iff |]. split; [line_then |]. split; [line_iff | line_then].
  - lines_of [pr_err (invalid_io_request (bi_sector b) (bi_size b)
                        vbswap_disksize)].
    split; [line_iff |]. split; [line_then |]. split; [line_iff | line_then].
  - lines_of [pr_debug (request_trace (bio_data_dir b) (page_index b) 0
                          (bi_size b))].
    split; [line_iff |]. split; [line_then |]. split; [line_iff | line_then].
  - lines_of [pr_debug (request_trace (bio_data_dir b) (page_index b) 0
                          (bi_size b))].
    split; [line_iff |]. split; [line_then |]. split; [line_iff | line_then].
  - lines_of [pr_debug (request_trace (bio_data_dir b) (page_index b) 0
                          (bi_size b))].
    split; [line_iff |]. split; [line_then |]. split; [line_iff | line_then].
  - lines_of [pr_debug (request_trace (bio_data_dir b) (page_index b) 0
                          (bi_size b));
              pr_err (bvec_misaligned (Z.min (bi_size b) (bv_len s))
                        (bv_offset s))].
    split; [line_iff |]. split; [line_then |]. split; [line_iff | line_then].
  - lines_of [pr_debug (request_trace (bio_data_dir b) (page_index b) 0
                          (bi_size b));
              pr_debug (segment_trace (bio_data_dir b) (page_index b)
                          PAGE_SIZE);
              pr_err read_outside_header].
    split; [line_iff |]. split; [line_then |]. split; [line_iff | line_then].
  - lines_of [pr_debug (request_trace (bio_data_dir b) (page_index b) 0
                          (bi_size b));
              pr_debug (segment_trace (bio_data_dir b) (page_index b)
                          PAGE_SIZE)].
    split; [line_iff |]. split; [line_then |]. split; [line_iff | line_then].
  - lines_of [pr_debug (request_trace (bio_data_dir b) (page_index b) 0
                          (bi_size b));
              pr_debug (segment_trace (bio_data_dir b) (page_index b)
                          PAGE_SIZE)].
    split; [line_iff |]. split; [line_then |]. split; [line_iff | line_then].
  - lines_of [pr_debug (request_trace (bio_data_dir b) (page_index b) 0
                          (bi_size b));
              pr_debug (segment_trace (bio_data_dir b) (page_index b)
                          PAGE_SIZE);
              pr_err write_outside_header;
              pr_err (bvec_rw_failed (- EIO))].
    split; [line_iff |]. split; [line_then |]. split; [line_iff | line_then].
  - lines_of [pr_debug (request_trace (bio_data_dir b) (page_index b) 0
                          (bi_size b));
              pr_debug (segment_trace (bio_data_dir b) (page_index b)
                          PAGE_SIZE)].
    split; [line_iff |]. split; [line_then |]. split; [line_iff | line_then].
  - lines_of [pr_debug (request_trace (bio_data_dir b) (page_index b) 0
                          (bi_size b));
              pr_debug (segment_trace (bio_data_dir b) (page_index b)
                          PAGE_SIZE)].
    split; [line_iff |]. split; [line_then |]. split; [line_iff | line_then].
Qed.

Lemma outside_header_complaints_witness :
  exists lines,
    dmesg (logged (at_page_op (page_request false 40 page_55) first_boot)
             (pr_err read_outside_header))
    = dmesg first_boot ++ lines
    /\ (In (pr_err read_outside_header) lines <->
        Z.land 0 PF_KTHREAD = 0
        /\ bi_write (page_request false 40 page_55) = false
        /\ page_index (page_request false 40 page_55) <> 0
        /\ exists s, reaches_page_op (page_request false 40 page_55) s)
    /\ (In (pr_err read_outside_header) lines -> BLK_STS_OK = BLK_STS_OK)
    /\ (In (pr_err write_outside_header) lines <->
        Z.land 0 PF_KTHREAD = 0
        /\ bi_write (page_request false 40 page_55) = true
        /\ page_index (page_request false 40 page_55) <> 0
        /\ exists s, reaches_page_op (page_request false 40 page_55) s)
    /\ (In (pr_err write_outside_header) lines ->
        BLK_STS_OK = BLK_STS_IOERR).
Proof.
  apply (outside_header_complaints 0 (page_request false 40 page_55)
           first_boot BLK_STS_OK [mk_bio_vec zero_page PAGE_SIZE 0]).
  vm_compute. reflexivity.
Defined.

(** ** The page read, byte by byte *)

(** A list with the stretch from [o] on replaced by [mid]. *)
Lemma splice_length {A} (dst mid : list A) (o : nat) :
  (o + List.length mid <= List.length dst)%nat ->
  List.length (firstn o dst ++ mid ++ skipn (o + List.length mid) dst)
  = List.length dst.
Proof.
  intros Hfit. rewrite !length_app, length_firstn, length_skipn. lia.
Qed.

Lemma splice_nth {A} (dst mid : list A) (o i : nat) (d : A) :
  (o + List.length mid <= List.length dst)%nat ->
  nth i (firstn o dst ++ mid ++ skipn (o + List.length mid) dst) d
  = if (i <? o)%nat then nth i dst d
    else if (i <? o + List.length mid)%nat then nth (i - o) mid d
    else nth i dst d.
Proof.
  intros Hfit.
  assert (List.length (firstn o dst) = o) as Hlen
      by (rewrite length_firstn; lia).
  destruct (Nat.ltb_spec i o) as [Hi | Hi].
  - rewrite app_nth1 by lia. rewrite nth_firstn.
    apply Nat.ltb_lt in Hi. now rewrite Hi.
  - rewrite app_nth2 by lia. rewrite Hlen.
    destruct (Nat.ltb_spec i (o + List.length mid)) as [Hm | Hm].
    + rewrite app_nth1 by lia. reflexivity.
    + rewrite app_nth2 by lia. rewrite nth_skipn. f_equal. lia.
Qed.

Lemma splice_spec (dst mid : page) (off n : Z) (i : nat) :
  0 <= off -> 0 <= n -> off + n <= Z.of_nat (List.length dst) ->
  List.length mid = Z.to_nat n ->
  List.length (firstn (Z.to_nat off) dst ++ mid
               ++ skipn (Z.to_nat (off + n)) dst)
  = List.length dst
  /\ nth i (firstn (Z.to_nat off) dst ++ mid
            ++ skipn (Z.to_nat (off + n)) dst) x00
     = if (Z.of_nat i <? off) || (off + n <=? Z.of_nat i)
       then nth i dst x00
       else nth (i - Z.to_nat off) mid x00.
Proof.
  intros Ho Hn Hfit Hmid.
  rewrite Z2Nat.inj_add, <- Hmid by assumption.
  assert (Z.to_nat off + List.length mid <= List.length dst)%nat as Hnat
      by lia.
  split; [now apply splice_length |].
  rewrite splice_nth by exact Hnat.
  destruct (Nat.ltb_spec i (Z.to_nat off)) as [H1 | H1];
    destruct (Z.ltb_spec (Z.of_nat i) off) as [H2 | H2];
    try lia; cbn [orb]; [reflexivity |].
  destruct (Nat.ltb_spec i (Z.to_nat off + List.length mid)) as [H3 | H3];
    destruct (Z.leb_spec (off + n) (Z.of_nat i)) as [H4 | H4];
    try lia; reflexivity.
Qed.

(** X8 (a read touches its range only).  For a segment that lies inside
    its page, the page read returns 0 and leaves a page of the same
    length in which the bytes before [bv_offset] and from
    [bv_offset + bv_len] on are what they were; each byte in between is
    the byte of the retained header at the same distance from the start
    when the index is 0 and a header is retained, and zero otherwise. *)
Theorem bvec_read_touches_its_range (bvec : bio_vec) (index : Z)
    (k : kernel) :
  0 <= bv_offset bvec -> 0 <= bv_len bvec ->
  bv_offset bvec + bv_len bvec <= Z.of_nat (List.length (bv_page bvec)) ->
  (forall h, swap_header_page k = Some h ->
             bv_len bvec <= Z.of_nat (List.length h)) ->
  exists page' k',
    vbswap_bvec_read bvec index k = Done (0, with_page bvec page') k'
    /\ List.length page' = List.length (bv_page bvec)
    /\ forall i : nat,
         nth i page' x00
         = if (Z.of_nat i <? bv_offset bvec)
              || (bv_offset bvec + bv_len bvec <=? Z.of_nat i)
           then nth i (bv_page bvec) x00
           else match index =? 0, swap_header_page k with
                | true, Some h => nth (i - Z.to_nat (bv_offset bvec)) h x00
                | _, _ => x00
                end.
Proof.
  intros Ho Hn Hfit Hhdr.
  assert (forall i,
             List.length (memset (bv_page bvec) (bv_offset bvec) x00
                            (bv_len bvec))
             = List.length (bv_page bvec)
             /\ nth i (memset (bv_page bvec) (bv_offset bvec) x00
                         (bv_len bvec)) x00
                = if (Z.of_nat i <? bv_offset bvec)
                     || (bv_offset bvec + bv_len bvec <=? Z.of_nat i)
                  then nth i (bv_page bvec) x00
                  else x00) as Hzero.
  { intros i. unfold memset.
    destruct (splice_spec (bv_page bvec) (repeat x00 (Z.to_nat (bv_len bvec)))
                (bv_offset bvec) (bv_len bvec) i Ho Hn Hfit
                (repeat_length _ _)) as [Hlen Hnth].
    split; [exact Hlen |]. rewrite Hnth.
    destruct ((Z.of_nat i <? bv_offset bvec)
              || (bv_offset bvec + bv_len bvec <=? Z.of_nat i));
      [reflexivity | apply nth_repeat]. }
  destruct (Z.eq_dec index 0) as [-> | Hi].
  - destruct (swap_header_page k) as [h |] eqn:Hh.
    + rewrite (bvec_read_holding _ _ h) by exact Hh.
      do 2 eexists. split; [reflexivity |].
      pose proof (Hhdr h eq_refl) as Hlong.
      assert (List.length (firstn (Z.to_nat (bv_len bvec)) h)
              = Z.to_nat (bv_len bvec)) as Hmid
          by (rewrite length_firstn; lia).
      split.
      * unfold memcpy.
        apply (splice_spec _ _ _ _ O Ho Hn Hfit Hmid).
      * intros i. unfold memcpy.
        rewrite (proj2 (splice_spec _ _ _ _ i Ho Hn Hfit Hmid)).
        cbn [Z.eqb].
        destruct (Z.ltb_spec (Z.of_nat i) (bv_offset bvec)) as [H1 | H1];
          cbn [orb]; [reflexivity |].
        destruct (Z.leb_spec (bv_offset bvec + bv_len bvec) (Z.of_nat i))
          as [H2 | H2]; [reflexivity |].
        rewrite nth_firstn.
        assert ((i - Z.to_nat (bv_offset bvec) <? Z.to_nat (bv_len bvec))%nat
                = true) as -> by (apply Nat.ltb_lt; lia).
        reflexivity.
    + rewrite bvec_read_empty by exact Hh.
      do 2 eexists. split; [reflexivity |].
      split; [apply (Hzero O) | intros i; apply Hzero].
  - rewrite bvec_read_outside by exact Hi.
    do 2 eexists. split; [reflexivity |].
    apply Z.eqb_neq in Hi. rewrite Hi.
    split; [apply (Hzero O) | intros i; apply Hzero].
Qed.

Lemma bvec_read_touches_its_range_witness :
  exists page' k',
    vbswap_bvec_read sector_segment 0 holding_aa
    = Done (0, with_page sector_segment page') k'
    /\ List.length page' = List.length (bv_page sector_segment)
    /\ forall i : nat,
         nth i page' x00
         = if (Z.of_nat i <? bv_offset sector_segment)
              || (bv_offset sector_segment + bv_len sector_segment
                  <=? Z.of_nat i)
           then nth i (bv_page sector_segment) x00
           else match 0 =? 0, swap_header_page holding_aa with
                | true, Some h =>
                    nth (i - Z.to_nat (bv_offset sector_segment)) h x00
                | _, _ => x00
                end.
Proof.
  apply (bvec_read_touches_its_range sector_segment 0 holding_aa).
  - cbn. lia.
  - cbn. lia.
  - vm_compute. discriminate.
  - intros h [= <-]. vm_compute. discriminate.
Defined.

(** ** The capacity *)

Lemma PAGE_ALIGN_div (x : Z) :
  0 <= x -> x + PAGE_SIZE <= 2 ^ 64 ->
  PAGE_ALIGN x = (x + (PAGE_SIZE - 1)) / PAGE_SIZE * PAGE_SIZE.
Proof.
  intros H0 Hmax. unfold PAGE_ALIGN, u64.
  rewrite <- Z.ldiff_land.
  change (PAGE_SIZE - 1) with (Z.ones 12).
  rewrite Z.ldiff_ones_r by lia.
  rewrite Z.shiftr_div_pow2, Z.shiftl_mul_pow2 by lia.
  change (2 ^ 12) with 4096. change (Z.ones 12) with 4095.
  rewrite PAGE_SIZE_value in *.
  pose proof (Z.div_mod (x + 4095) 4096 ltac:(lia)) as Hdm.
  pose proof (Z.mod_pos_bound (x + 4095) 4096 ltac:(lia)) as Hb.
  apply Z.mod_small. lia.
Qed.

(** X9 (page alignment of the capacity).  Whatever size below 2^64 less a
    page is configured, [PAGE_ALIGN] makes it the least multiple of the
    page size that is not smaller, and leaves a multiple as it is.  So the
    capacity of the device is whole pages, and its count of sectors,
    shifted back, is the capacity in bytes with nothing cut off. *)
Theorem PAGE_ALIGN_rounds_up (x : Z) :
  0 <= x -> x + PAGE_SIZE <= 2 ^ 64 ->
  PAGE_ALIGN x mod PAGE_SIZE = 0
  /\ x <= PAGE_ALIGN x < x + PAGE_SIZE
  /\ (x mod PAGE_SIZE = 0 -> PAGE_ALIGN x = x)
  /\ vbswap_disksize mod PAGE_SIZE = 0
  /\ Z.shiftl (Z.shiftr vbswap_disksize SECTOR_SHIFT) SECTOR_SHIFT
     = vbswap_disksize.
Proof.
  intros H0 Hmax. rewrite (PAGE_ALIGN_div x H0 Hmax).
  rewrite PAGE_SIZE_value in *.
  change (4096 - 1) with 4095.
  pose proof (Z.div_mod (x + 4095) 4096 ltac:(lia)) as Hdm.
  pose proof (Z.mod_pos_bound (x + 4095) 4096 ltac:(lia)) as Hb.
  split; [apply Z.mod_mul; lia |]. split; [lia |]. split.
  - intros Hx. pose proof (Z.div_mod x 4096 ltac:(lia)) as Hxd. lia.
  - split; reflexivity.
Qed.

Lemma PAGE_ALIGN_rounds_up_witness :
  PAGE_ALIGN 4097 mod PAGE_SIZE = 0
  /\ 4097 <= PAGE_ALIGN 4097 < 4097 + PAGE_SIZE
  /\ (4097 mod PAGE_SIZE = 0 -> PAGE_ALIGN 4097 = 4097)
  /\ vbswap_disksize mod PAGE_SIZE = 0
  /\ Z.shiftl (Z.shiftr vbswap_disksize SECTOR_SHIFT) SECTOR_SHIFT
     = vbswap_disksize.
Proof.
  apply (PAGE_ALIGN_rounds_up 4097); [lia | vm_compute; discriminate].
Defined.

(** ** The life of the module, case by case *)

(** Runs of the module are evaluated lazily, which keeps the state
    small; the record of calls is put back into one list. *)
Ltac run_module :=
  lazy - [app]; rewrite <- ?app_assoc; cbn [app].

Lemma create_device_run (h : host) (m : module) :
  create_device h m =
  match alloc_disk_gives h with
  | None =>
      Finished (- ENOMEM)
        (mk_module (vbswap_major m) None (device m)
           (calls m ++ [alloc_disk 1 None; pr_err_line no_disk_structure]))
  | Some d =>
      match blk_alloc_queue_gives h with
      | None =>
          Finished (- ENOMEM)
            (mk_module (vbswap_major m) (Some (with_queue d None)) (device m)
               (calls m ++ [alloc_disk 1 (Some d); blk_alloc_queue None;
                            pr_err_line no_disk_queue;
                            put_disk (with_queue d None)]))
      | Some q =>
          Finished 0
            (mk_module (vbswap_major m) (Some (the_disk q (vbswap_major m)))
               (device m) (calls m ++ setup_calls d q (vbswap_major m)))
      end
  end.
Proof.
  destruct h as [r [d |] [q |]]; unfold create_device; run_module;
    reflexivity.
Qed.

Lemma vbswap_init_run (h : host) (m : module) :
  vbswap_init h m =
  let r := register_blkdev_gives h in
  let registered := calls m ++ [register_blkdev 0 "zram" r] in
  if r <=? 0 then
    Finished (- EBUSY)
      (mk_module r (vbswap_disk m) (device m)
         (registered ++ [pr_err_line no_major_number]))
  else
    match alloc_disk_gives h with
    | None =>
        Finished (- ENOMEM)
          (mk_module r None (device m)
             (registered ++ [alloc_disk 1 None; pr_err_line no_disk_structure;
                             pr_err_line no_vbswap_device;
                             unregister_blkdev r "zram"]))
    | Some d =>
        match blk_alloc_queue_gives h with
        | None =>
            Finished (- ENOMEM)
              (mk_module r (Some (with_queue d None)) (device m)
                 (registered ++ [alloc_disk 1 (Some d); blk_alloc_queue None;
                                 pr_err_line no_disk_queue;
                                 put_disk (with_queue d None);
                                 pr_err_line no_vbswap_device;
                                 unregister_blkdev r "zram"]))
        | Some q =>
            Finished 0
              (mk_module r (Some (the_disk q r)) (device m)
                 (registered ++ setup_calls d q r))
        end
    end.
Proof.
  cbv zeta. unfold vbswap_init.
  unfold bindK at 1. unfold call at 1. unfold bindK at 1.
  unfold set_vbswap_major at 1. unfold bindK at 1.
  unfold get_vbswap_major at 1.
  cbn [vbswap_major vbswap_disk device calls].
  destruct (register_blkdev_gives h <=? 0).
  - run_module. reflexivity.
  - unfold bindK at 1. rewrite create_device_run.
    cbn [vbswap_major vbswap_disk device calls].
    destruct (alloc_disk_gives h) as [d |];
      [destruct (blk_alloc_queue_gives h) as [q |] |];
      run_module; reflexivity.
Qed.

(** X10 (loading fails cleanly).  [vbswap_init] always returns, with 0,
    [-EBUSY] or [-ENOMEM]: 0 exactly when the registration gave a number
    and both allocations succeeded, [-EBUSY] exactly when it gave none.
    When it returns an error it has undone what it did: the number is
    unregistered under the name it was registered with, the disk
    structure, if one was allocated, is put back, and no disk was added.
    When it returns 0 the number is registered as "zram" and the disk
    "zram0" with that number has been added.  The request path is not
    touched either way. *)
Theorem init_cleans_up_after_itself (h : host) (m : module) :
  exists r m' new,
    vbswap_init h m = Finished r m'
    /\ calls m' = calls m ++ new /\ device m' = device m
    /\ (r = 0 <->
        0 < register_blkdev_gives h /\ alloc_disk_gives h <> None
        /\ blk_alloc_queue_gives h <> None)
    /\ (r = - EBUSY <-> register_blkdev_gives h <= 0)
    /\ (r = 0 \/ r = - EBUSY \/ r = - ENOMEM)
    /\ (r <> 0 ->
        registrations new [] = [] /\ disks_held new = 0
        /\ forall d, ~ In (add_disk d) new)
    /\ (r = 0 ->
        registrations new [] = [(register_blkdev_gives h, "zram"%string)]
        /\ disks_held new = 1
        /\ vbswap_major m' = register_blkdev_gives h
        /\ exists q,
             vbswap_disk m' = Some (the_disk q (register_blkdev_gives h))
             /\ In (add_disk (the_disk q (register_blkdev_gives h))) new).
Proof.
  rewrite vbswap_init_run. cbv zeta.
  assert (forall (cs : list kcall),
             (forall c, In c cs -> forall d, c <> add_disk d) ->
             forall d, ~ In (add_disk d) cs) as Hnone.
  { intros cs Hcs d Hin. exact (Hcs _ Hin d eq_refl). }
  destruct (Z.leb_spec (register_blkdev_gives h) 0) as [Hr | Hr].
  - assert ((0 <? register_blkdev_gives h) = false) as Hlt
        by (apply Z.ltb_ge; lia).
    do 3 eexists. split; [reflexivity |].
    split; [cbn [calls]; rewrite <- app_assoc; reflexivity |].
    split; [reflexivity |].
    split; [split; [discriminate | lia] |].
    split; [split; [lia | reflexivity] |].
    split; [right; left; reflexivity |].
    split; [| discriminate].
    intros _. split; [cbn; now rewrite Hlt |]. split; [reflexivity |].
    apply Hnone. intros c [<- | [<- | []]] d; discriminate.
  - assert ((0 <? register_blkdev_gives h) = true) as Hlt
        by (apply Z.ltb_lt; lia).
    destruct (alloc_disk_gives h) as [d |];
      [destruct (blk_alloc_queue_gives h) as [q |] |];
      (do 3 eexists; split; [reflexivity |];
       split; [cbn [calls]; rewrite <- app_assoc; reflexivity |];
       split; [reflexivity |]).
    + split; [split; [intros _; repeat split; (lia || discriminate)
                     | reflexivity] |].
      split; [split; [discriminate | lia] |].
      split; [left; reflexivity |].
      split; [intros Hne; now contradiction Hne |].
      intros _. split; [cbn; now rewrite Hlt |].
      split; [reflexivity |]. split; [reflexivity |].
      exists q. split; [reflexivity |]. cbn. tauto.
    + split; [split; [discriminate | intros (_ & _ & Hq); now contradiction Hq]
             |].
      split; [split; [discriminate | lia] |].
      split; [right; right; reflexivity |].
      split; [| discriminate].
      intros _. split; [cbn; rewrite Hlt; cbn; now rewrite Z.eqb_refl |].
      split; [reflexivity |].
      apply Hnone.
      intros c [<- | [<- | [<- | [<- | [<- | [<- | [<- | []]]]]]]] d0;
        discriminate.
    + split; [split; [discriminate | intros (_ & Hd & _); now contradiction Hd]
             |].
      split; [split; [discriminate | lia] |].
      split; [right; right; reflexivity |].
      split; [| discriminate].
      intros _. split; [cbn; rewrite Hlt; cbn; now rewrite Z.eqb_refl |].
      split; [reflexivity |].
      apply Hnone.
      intros c [<- | [<- | [<- | [<- | [<- | []]]]]] d0; discriminate.
Qed.

Lemma only_success_returns_0 (h : host) (m m' : module) :
  create_device h m = Finished 0 m' ->
  exists d q,
    alloc_disk_gives h = Some d /\ blk_alloc_queue_gives h = Some q
    /\ m' = mk_module (vbswap_major m) (Some (the_disk q (vbswap_major m)))
              (device m) (calls m ++ setup_calls d q (vbswap_major m)).
Proof.
  rewrite create_device_run.
  destruct (alloc_disk_gives h) as [d |];
    [destruct (blk_alloc_queue_gives h) as [q |] |];
    intros [= <-]. now exists d, q.
Qed.

(** X11 (the limits given to the block layer are the ones enforced).
    When [create_device] succeeds it has told the block layer a capacity
    of 12582912 sectors, blocks of 4096 bytes, logical and physical, for
    the smallest and the preferred transfer too, and at most 8 sectors
    per request.  Whatever it said, a request that is not empty passes the
    validator and the length test of the dispatcher exactly when it stays
    within these limits; such a request is one page long. *)
Theorem advertised_limits_are_the_enforced_ones (h : host)
    (m m' : module) :
  create_device h m = Finished 0 m' ->
  exists q new,
    calls m' = calls m ++ new
    /\ In (set_capacity 12582912) new
    /\ In (blk_queue_logical_block_size q 4096) new
    /\ In (blk_queue_physical_block_size q 4096) new
    /\ In (blk_queue_io_min q 4096) new
    /\ In (blk_queue_io_opt q 4096) new
    /\ In (blk_queue_max_hw_sectors q 8) new
    /\ forall cap lbs maxs b,
         In (set_capacity cap) new ->
         In (blk_queue_logical_block_size q lbs) new ->
         In (blk_queue_max_hw_sectors q maxs) new ->
         (within_limits b cap lbs maxs <->
          0 <= bi_sector b /\ 0 < bi_size b
          /\ vbswap_valid_io_request b = 1 /\ bi_size b <= PAGE_SIZE)
         /\ (within_limits b cap lbs maxs -> bi_size b = PAGE_SIZE).
Proof.
  intros Hrun.
  destruct (only_success_returns_0 h m m' Hrun) as (d & q & _ & _ & ->).
  exists q, (setup_calls d q (vbswap_major m)).
  split; [reflexivity |].
  do 6 (split; [cbn; tauto |]).
  intros cap lbs maxs b Hcap Hlbs Hmax.
  assert (cap = 12582912) as ->.
  { cbn [setup_calls In] in Hcap.
    repeat (destruct Hcap as [Hcap | Hcap]; [try discriminate Hcap |]);
      [| contradiction].
    injection Hcap as <-. reflexivity. }
  assert (lbs = 4096) as ->.
  { cbn [setup_calls In] in Hlbs.
    repeat (destruct Hlbs as [Hlbs | Hlbs]; [try discriminate Hlbs |]);
      [| contradiction].
    injection Hlbs as <-. reflexivity. }
  assert (maxs = 8) as ->.
  { cbn [setup_calls In] in Hmax.
    repeat (destruct Hmax as [Hmax | Hmax]; [try discriminate Hmax |]);
      [| contradiction].
    injection Hmax as <-. reflexivity. }
  unfold within_limits. change SECTOR_SIZE with 512.
  rewrite PAGE_SIZE_value.
  pose proof (Z.div_mod (bi_sector b) 8 ltac:(lia)) as Hs8.
  pose proof (Z.mod_pos_bound (bi_sector b) 8 ltac:(lia)) as Hb8.
  pose proof (Z.div_mod (bi_sector b * 512) 4096 ltac:(lia)) as Hs.
  pose proof (Z.mod_pos_bound (bi_sector b * 512) 4096 ltac:(lia)) as Hbs.
  pose proof (Z.div_mod (bi_size b) 4096 ltac:(lia)) as Hz.
  pose proof (Z.mod_pos_bound (bi_size b) 4096 ltac:(lia)) as Hbz.
  destruct (valid_io_request_cases b) as [[Hv Hc] | [Hv Hc]]; rewrite Hv.
  - split; [| lia]. split; [| intros (_ & _ & [=] & _)].
    intros (H0 & Hpos & Hend & Hal & Hsz & Hlen). exfalso. lia.
  - split; [| lia]. split; [lia |].
    intros (H0 & Hpos & _ & Hlen). repeat split; lia.
Qed.

Lemma advertised_limits_are_the_enforced_ones_witness :
  exists q new,
    calls (mk_module 0 (Some (the_disk 77 0)) first_boot
             (setup_calls blank_disk 77 0))
    = calls unloaded ++ new
    /\ In (set_capacity 12582912) new
    /\ In (blk_queue_logical_block_size q 4096) new
    /\ In (blk_queue_physical_block_size q 4096) new
    /\ In (blk_queue_io_min q 4096) new
    /\ In (blk_queue_io_opt q 4096) new
    /\ In (blk_queue_max_hw_sectors q 8) new
    /\ forall cap lbs maxs b,
         In (set_capacity cap) new ->
         In (blk_queue_logical_block_size q lbs) new ->
         In (blk_queue_max_hw_sectors q maxs) new ->
         (within_limits b cap lbs maxs <->
          0 <= bi_sector b /\ 0 < bi_size b
          /\ vbswap_valid_io_request b = 1 /\ bi_size b <= PAGE_SIZE)
         /\ (within_limits b cap lbs maxs -> bi_size b = PAGE_SIZE).
Proof.
  apply (advertised_limits_are_the_enforced_ones kind_host unloaded).
  reflexivity.
Defined.

Lemma vbswap_exit_run (m : module) :
  vbswap_exit m =
  match vbswap_disk m with
  | None => Fault
  | Some d =>
      Finished tt
        (mk_module (vbswap_major m) (Some d) (device m)
           (calls m
            ++ unload_calls d (vbswap_major m)
                 (swap_header_page (device m))))
  end.
Proof.
  unfold vbswap_exit, destroy_device, unload_calls.
  destruct m as [number [[[q |] mj fm nm gs] |] [[p |] pa dm] cs];
    run_module; reflexivity.
Qed.

(** X12 (unloading).  After a successful [vbswap_init], and whatever the
    request path has done since, [vbswap_exit] completes: it deletes the
    disk, drops the reference taken at its allocation and cleans the
    queue up, and it frees the retained header page exactly when one is
    retained.  Its one call of [unregister_blkdev] gives the number
    registered at loading but the name "vbswap", not the "zram" it was
    registered with, so that the registration is still in force when the
    module is gone. *)
Theorem unloading_keeps_the_registration (h : host) (m0 m1 : module)
    (k : kernel) :
  vbswap_init h m0 = Finished 0 m1 ->
  exists d q loading unloading m2,
    calls m1 = calls m0 ++ loading
    /\ vbswap_disk m1 = Some d /\ queue d = Some q
    /\ vbswap_exit (with_device m1 k) = Finished tt m2
    /\ calls m2 = calls m1 ++ unloading
    /\ In (del_gendisk d) unloading
    /\ In (blk_cleanup_queue q) unloading
    /\ disks_held (loading ++ unloading) = 0
    /\ (forall p, In (free_page p) unloading <-> swap_header_page k = Some p)
    /\ (forall number name,
          In (unregister_blkdev number name) unloading ->
          number = vbswap_major m1 /\ name = "vbswap"%string)
    /\ registrations loading [] = [(vbswap_major m1, "zram"%string)]
    /\ registrations (loading ++ unloading) []
       = [(vbswap_major m1, "zram"%string)].
Proof.
  rewrite vbswap_init_run. cbv zeta.
  destruct (Z.leb_spec (register_blkdev_gives h) 0) as [Hr | Hr];
    [intros [=] |].
  assert ((0 <? register_blkdev_gives h) = true) as Hlt
      by (apply Z.ltb_lt; lia).
  destruct (alloc_disk_gives h) as [d0 |];
    [destruct (blk_alloc_queue_gives h) as [q |] |]; intros [= <-].
  set (r := register_blkdev_gives h) in *.
  exists (the_disk q r), q,
    (register_blkdev 0 "zram" r :: setup_calls d0 q r),
    (unload_calls (the_disk q r) r (swap_header_page k)).
  eexists.
  split; [cbn [calls]; rewrite <- app_assoc; reflexivity |].
  split; [reflexivity |]. split; [reflexivity |].
  split; [rewrite vbswap_exit_run; reflexivity |].
  split; [reflexivity |].
  split; [cbn; tauto |]. split; [cbn; tauto |].
  split; [destruct (swap_header_page k); reflexivity |].
  split.
  { intros p. unfold unload_calls. cbn [the_disk queue app In].
    destruct (swap_header_page k) as [p0 |]; cbn [In]; split.
    - intros [H | [H | [H | [H | [H | []]]]]]; try discriminate H.
      now injection H as ->.
    - intros [= ->]. tauto.
    - intros [H | [H | [H | [H | []]]]]; discriminate H.
    - intros [=]. }
  split.
  { intros number name. unfold unload_calls. cbn [the_disk queue app In].
    destruct (swap_header_page k) as [p0 |]; cbn [In]; intros Hin;
      repeat (destruct Hin as [Hin | Hin]; [try discriminate Hin |]);
      try contradiction; injection Hin as <- <-; now split. }
  split.
  { cbn. rewrite Hlt. reflexivity. }
  destruct (swap_header_page k); cbn; rewrite Hlt; cbn;
    rewrite Z.eqb_refl; reflexivity.
Qed.

Lemma unloading_keeps_the_registration_witness :
  exists d q loading unloading m2,
    calls loaded = calls unloaded ++ loading
    /\ vbswap_disk loaded = Some d /\ queue d = Some q
    /\ vbswap_exit (with_device loaded holding_aa) = Finished tt m2
    /\ calls m2 = calls loaded ++ unloading
    /\ In (del_gendisk d) unloading
    /\ In (blk_cleanup_queue q) unloading
    /\ disks_held (loading ++ unloading) = 0
    /\ (forall p, In (free_page p) unloading
                  <-> swap_header_page holding_aa = Some p)
    /\ (forall number name,
          In (unregister_blkdev number name) unloading ->
          number = vbswap_major loaded /\ name = "vbswap"%string)
    /\ registrations loading [] = [(vbswap_major loaded, "zram"%string)]
    /\ registrations (loading ++ unloading) []
       = [(vbswap_major loaded, "zram"%string)].
Proof.
  apply (unloading_keeps_the_registration kind_host unloaded loaded
           holding_aa).
  reflexivity.
Defined.

(** X13 (no disk, no unloading).  The test of [vbswap_disk] in
    [destroy_device] covers the removal of the disk only: the queue is
    read through the pointer in any case, so [destroy_device], and
    [vbswap_exit] which starts with it, faults exactly when there is no
    disk. *)
Theorem destroy_device_needs_a_disk (m : module) :
  (destroy_device m = Fault <-> vbswap_disk m = None)
  /\ (vbswap_exit m = Fault <-> vbswap_disk m = None).
Proof.
  split.
  - unfold destroy_device.
    destruct m as [number [[[q |] mj fm nm gs] |] k cs]; run_module;
      split; (discriminate || (intros; reflexivity)).
  - rewrite vbswap_exit_run.
    destruct (vbswap_disk m); split; intros; try discriminate; reflexivity.
Qed.

(** ** The device as a machine on the header alone *)

Lemma machine_past_checks (header : option page) (current_flags : Z)
    (b : bio) (s : bio_vec) :
  Z.land current_flags PF_KTHREAD = 0 -> reaches_page_op b s ->
  header_machine header current_flags b =
  if bi_write b then
    if page_index b =? 0
    then ((BLK_STS_OK, [s]), Some (bv_page s))
    else ((BLK_STS_IOERR, [s]), header)
  else
    match page_index b =? 0, header with
    | true, Some h => ((BLK_STS_OK, [with_page s h]), None)
    | _, _ => ((BLK_STS_OK, [with_page s zero_page]), header)
    end.
Proof.
  intros Hf Hreq. destruct (reaches_full_page b s Hreq) as [Hpos Hmin].
  destruct Hreq as (Hv & Hsz & Hvec & Hl & Ho). unfold header_machine.
  rewrite Hf, Hv, (gtb_false _ _ (proj2 Hpos)). unfold bi_vcnt. rewrite Hvec.
  change (Z.of_nat (List.length [s]) >? 1) with false.
  assert ((bi_size b <=? 0) = false) as -> by (apply Z.leb_gt; lia).
  rewrite Hmin, Ho, !Z.eqb_refl. reflexivity.
Qed.

Lemma machine_step (k : kernel) (current_flags : Z) (b : bio)
    (r : blk_status_t * list bio_vec) (k' : kernel) :
  kernel_of_pages k -> request_of_pages b ->
  vbswap_make_request current_flags b k = Done r k' ->
  header_machine (swap_header_page k) current_flags b
  = (r, swap_header_page k').
Proof.
  intros [Hhdr Hpool] Hpages Hrun. paths Hrun;
    try (pose proof (single_segment_page _ _ Hpages Hreq) as Hs;
         rewrite (machine_past_checks _ _ _ _ Hf Hreq));
    cbn [swap_header_page at_page_op traced logged].
  - unfold header_machine. apply Z.eqb_neq in Hf. rewrite Hf. reflexivity.
  - unfold header_machine. rewrite Hf, Hv. reflexivity.
  - unfold header_machine. rewrite Hf, Hv. cbn [Z.eqb negb orb].
    destruct Hbig as [Hbig | Hbig].
    + rewrite (gtb_true _ _ Hbig). reflexivity.
    + rewrite (gtb_true _ _ Hbig), orb_true_r. reflexivity.
  - unfold header_machine. rewrite Hf, Hv, (gtb_false _ _ Hsz).
    unfold bi_vcnt. rewrite Hvec. reflexivity.
  - unfold header_machine.
    assert (bi_size b <= PAGE_SIZE) as Hsmall
        by (rewrite PAGE_SIZE_value; lia).
    rewrite Hf, Hv, (gtb_false _ _ Hsmall).
    unfold bi_vcnt. rewrite Hvec.
    change (Z.of_nat (List.length [s]) >? 1) with false.
    cbn [Z.eqb negb orb].
    assert ((bi_size b <=? 0) = true) as -> by (apply Z.leb_le; lia).
    reflexivity.
  - unfold header_machine. rewrite Hf, Hv, (gtb_false _ _ (proj2 Hsz)).
    unfold bi_vcnt. rewrite Hvec.
    change (Z.of_nat (List.length [s]) >? 1) with false.
    cbn [Z.eqb negb orb].
    assert ((bi_size b <=? 0) = false) as -> by (apply Z.leb_gt; lia).
    assert (negb (Z.min (bi_size b) (bv_len s) =? PAGE_SIZE)
            || negb (bv_offset s =? 0) = true)
      as ->.
    { destruct Hbad as [Hb | Hb]; apply Z.eqb_neq in Hb; rewrite Hb;
        [reflexivity | apply orb_true_r]. }
    reflexivity.
  - rewrite Hr. apply Z.eqb_neq in Hn. rewrite Hn.
    now rewrite (memset_full _ _ Hs).
  - rewrite Hr, Hz, Hh. now rewrite (memset_full _ _ Hs).
  - rewrite Hr, Hz, Hh. now rewrite (memcpy_full _ _ Hs (Hhdr h Hh)).
  - rewrite Hw. apply Z.eqb_neq in Hn. rewrite Hn. reflexivity.
  - rewrite Hw, Hz. now rewrite (memcpy_full _ _ (Hhdr h Hh) Hs).
  - rewrite Hw, Hz.
    assert (is_page p) as Hp by (apply Hpool; rewrite Ha; now left).
    now rewrite (memcpy_full _ _ Hp Hs).
Qed.

Lemma header_machine_simulates (requests : list (Z * bio)) :
  forall (k : kernel) (rs : list (blk_status_t * list bio_vec))
         (k' : kernel),
  reachable k -> Forall (fun request => request_of_pages (snd request))
                        requests ->
  submit_all requests k = Done rs k' ->
  header_machine_run (swap_header_page k) requests
  = (rs, swap_header_page k')
  /\ reachable k'.
Proof.
  induction requests as [| [f b] rest IH]; intros k rs k' Hk Hall Hrun.
  - injection Hrun as <- <-. now split.
  - inversion Hall as [| ? ? Hb Hrest]; subst. cbn [snd] in Hb.
    cbn [submit_all] in Hrun. unfold bind at 1 in Hrun.
    destruct (vbswap_make_request f b k) as [r k1 |] eqn:Hstep;
      [| discriminate Hrun].
    unfold bind at 1 in Hrun.
    destruct (submit_all rest k1) as [rs1 k2 |] eqn:Hrest1;
      [| discriminate Hrun].
    injection Hrun as <- <-.
    pose proof (reachable_request k f b r k1 Hk Hb Hstep) as Hk1.
    destruct (IH k1 rs1 k2 Hk1 Hrest Hrest1) as [Hmachine Hk2].
    split; [| exact Hk2].
    cbn [header_machine_run].
    rewrite (machine_step k f b r k1 (reachable_of_pages k Hk) Hb Hstep).
    now rewrite Hmachine.
Qed.

(** X14 (the header is the whole state).  Two devices that retain the
    same header page, or both none, answer every series of requests alike:
    as long as the requests complete on both, the statuses and the pages
    returned are the same and so is what is retained in the end, whatever
    each device has served and logged before and whatever pages its
    allocator has in store. *)
Theorem header_is_the_whole_state (requests : list (Z * bio))
    (k1 k2 : kernel) (rs1 rs2 : list (blk_status_t * list bio_vec))
    (k1' k2' : kernel) :
  reachable k1 -> reachable k2 ->
  swap_header_page k1 = swap_header_page k2 ->
  Forall (fun request => request_of_pages (snd request)) requests ->
  submit_all requests k1 = Done rs1 k1' ->
  submit_all requests k2 = Done rs2 k2' ->
  rs1 = rs2 /\ swap_header_page k1' = swap_header_page k2'.
Proof.
  intros H1 H2 Hsame Hall Hrun1 Hrun2.
  destruct (header_machine_simulates requests k1 rs1 k1' H1 Hall Hrun1)
    as [Hm1 _].
  destruct (header_machine_simulates requests k2 rs2 k2' H2 Hall Hrun2)
    as [Hm2 _].
  rewrite Hsame, Hm2 in Hm1. now injection Hm1 as <- <-.
Qed.

Lemma header_is_the_whole_state_witness :
  [(BLK_STS_OK, [mk_bio_vec page_aa PAGE_SIZE 0]);
   (BLK_STS_IOERR, [mk_bio_vec page_55 PAGE_SIZE 0])]
  = [(BLK_STS_OK, [mk_bio_vec page_aa PAGE_SIZE 0]);
     (BLK_STS_IOERR, [mk_bio_vec page_55 PAGE_SIZE 0])]
  /\ swap_header_page holding_aa = swap_header_page holding_aa_in_store.
Proof.
  apply (header_is_the_whole_state two_writes first_boot well_stocked_boot
           _ _ holding_aa holding_aa_in_store).
  - apply reachable_boot. intros p [[= <-] | []]. reflexivity.
  - apply reachable_boot.
    intros p [[= <-] | [[= <-] | []]]; reflexivity.
  - reflexivity.
  - repeat constructor.
  - vm_compute. reflexivity.
  - vm_compute. reflexivity.
Defined.
